(** * The per-type asset table store and its clients

    A shallow embedding of

    - [src/data-layer/main.py] (module [DataLayer]): the FastAPI handlers
      [create_asset], [update_asset], [list_assets_by_type] and
      [create_assets_batch], which keep one parquet table per asset type
      in an S3 bucket;
    - [src/microservices/data-access-service/src/data_layer_client.py]
      (modules [DataLayerClient] and [DataLayerClientDelete]):
      [batch_create_assets], [batch_update_assets] and
      [batch_delete_assets], with their pre-checks;
    - [src/microservices/data-access-service/src/service.py]
      (module [DataAccessService]): [create_assets_batch], the batch call
      with its per-record fallback, and (module [Deployment]) the same
      in front of the data layer;
    - [src/api-gateway/main.py] (module [Gateway]): the target of
      [forward_request].

    Handlers are state-passing functions over an explicit world (bucket,
    log of writes, clock); a Python exception is a value of an error
    type; a [for] loop is a fold over its list. *)

From stdpp Require Import base strings list gmap sets pretty.
From Stdlib Require Import ZArith Lia Ascii.

Local Open Scope string_scope.
Local Open Scope list_scope.
Local Open Scope stdpp_scope.

(** ** Results of fallible code *)

Inductive result (E A : Type) : Type :=
  | Ok (a : A)
  | Err (e : E).
Arguments Ok {E A} a.
Arguments Err {E A} e.

Definition is_ok {E A} (r : result E A) : bool :=
  match r with Ok _ => true | Err _ => false end.

(** [json.dumps] / [json.loads] on the dictionaries held by an asset
    ([Dict[str, Any]], as pydantic builds them from a JSON body): the
    library is not part of the repository, so it is an interface.
    [json_empty] is the literal [{}]; [json_loads] gives [None] where
    Python raises. *)
Class JsonCodec (J : Type) := {
  json_dumps : J → string;
  json_loads : string → option J;
  json_empty : J;
  json_loads_dumps : ∀ j, json_loads (json_dumps j) = Some j
}.

(** * src/data-layer/main.py *)
Module DataLayer.

(** [class AssetType(str, Enum)] and its [.value]. *)
Inductive AssetType :=
  | VPC | SUBNET | EC2 | S3 | IAM_ROLE | SECURITY_GROUP
  | USER | IGW | NI | LAMBDA | IAM_POLICY.

Definition value (t : AssetType) : string :=
  match t with
  | VPC => "vpc" | SUBNET => "subnet" | EC2 => "ec2" | S3 => "s3"
  | IAM_ROLE => "iam_role" | SECURITY_GROUP => "sg" | USER => "user"
  | IGW => "igw" | NI => "ni" | LAMBDA => "lambda"
  | IAM_POLICY => "iam_policy"
  end.

(** The f-string of lines 134 and 367:
    [f"AssetType.{asset_type.value}_{asset.unique_id}"]. *)
Definition make_asset_id (t : AssetType) (uid : string) : string :=
  "AssetType." +:+ value t +:+ "_" +:+ uid.

(** [f"metadata/{asset_id}.json"] and [f"data/{asset_type.value}.parquet"]. *)
Definition metadata_key (asset_id : string) : string :=
  "metadata/" +:+ asset_id +:+ ".json".
Definition data_key (t : AssetType) : string :=
  "data/" +:+ value t +:+ ".parquet".

(** One line of a type's table: the nine columns written at lines
    172-182 and 408-418. [metadata] and [tags] hold JSON text,
    [created_at] and [updated_at] ISO timestamps. *)
Record Row := {
  asset_id : string;
  unique_id : string;
  name : string;
  description : option string;
  metadata : string;
  tags : string;
  is_stale : bool;
  created_at : string;
  updated_at : string
}.

(** A pandas DataFrame over those columns. [pd.DataFrame()] has no
    columns at all, so that [df['unique_id']] raises [KeyError] on it. *)
Inductive DataFrame :=
  | NoColumns
  | Frame (rows : list Row).

Definition frame_rows (df : DataFrame) : list Row :=
  match df with NoColumns => [] | Frame rows => rows end.

(** [len(df)] *)
Definition len (df : DataFrame) : nat := length (frame_rows df).

(** One entry of [ValidationError.errors()]: the place (the index of the
    asset in its batch, then the path inside the asset: the field, and
    below it the place inside the value of the field), the message and
    the type of the error. *)
Record ErrorDetail := {
  err_loc : nat * list string;
  err_msg : string;
  err_type : string
}.

(** Python exceptions raised inside the handlers. [ValueError] and
    [TypeError] are the two that pandas raises at line 238. *)
Inductive Exn :=
  | KeyError (key : string)
  | IndexError
  | ParquetError                 (* [pd.read_parquet] on a non-parquet body *)
  | JSONDecodeError
  | ValueError
  | TypeError
  | ValidationError (errors : list ErrorDetail).

(** [raise HTTPException(status_code=..., detail=...)] *)
Inductive HTTPException :=
  | HTTP500 (detail : Exn)
  | HTTP422 (errors : list ErrorDetail).

(** [df['unique_id']] *)
Definition col_unique_id (df : DataFrame) : result Exn (list string) :=
  match df with
  | NoColumns => Err (KeyError "unique_id")
  | Frame rows => Ok (map unique_id rows)
  end.

(** [pd.concat([df, pd.DataFrame([row])], ignore_index=True)] *)
Definition concat_row (df : DataFrame) (row : Row) : DataFrame :=
  Frame (frame_rows df ++ [row]).

(** The sidecar document of lines 138-149. *)
Record MetadataDoc (J : Type) := {
  doc_asset_id : string;
  doc_asset_type : AssetType;
  doc_unique_id : string;
  doc_name : string;
  doc_description : option string;
  doc_metadata : J;
  doc_tags : J;
  doc_is_stale : bool;
  doc_created_at : string;
  doc_updated_at : string
}.
Arguments doc_asset_id {J} _.
Arguments doc_created_at {J} _.

(** What a key of the bucket holds. *)
Inductive Object (J : Type) :=
  | JsonObject (doc : MetadataDoc J)
  | Parquet (df : DataFrame).
Arguments JsonObject {J} doc.
Arguments Parquet {J} df.

(** The world of a handler: the bucket [fortifai-data], the keys passed
    to [put_object] so far (latest last), and the clock: the [n]-th call
    of [datetime.utcnow().isoformat()] returns [clock n]. *)
Record World (J : Type) := {
  bucket : gmap string (Object J);
  puts : list string;
  clock : nat → string;
  ticks : nat
}.
Arguments bucket {J} _.
Arguments puts {J} _.
Arguments clock {J} _.
Arguments ticks {J} _.

(** [class AssetCreate(BaseModel)], lines 71-77. *)
Record AssetCreate (J : Type) := {
  ac_unique_id : string;
  ac_name : string;
  ac_description : option string;
  ac_metadata : J;
  ac_tags : J;
  ac_is_stale : bool
}.
Arguments ac_unique_id {J} _.
Arguments ac_name {J} _.
Arguments ac_description {J} _.
Arguments ac_metadata {J} _.
Arguments ac_tags {J} _.
Arguments ac_is_stale {J} _.

(** The dictionaries returned by the handlers (lines 196-207, 298-318,
    439-450). *)
Record AssetOut (J : Type) := {
  out_id : string;
  out_asset_type : AssetType;
  out_unique_id : string;
  out_name : string;
  out_description : option string;
  out_metadata : J;
  out_tags : J;
  out_is_stale : bool;
  out_created_at : string;
  out_updated_at : string
}.
Arguments out_id {J} _.
Arguments out_asset_type {J} _.
Arguments out_unique_id {J} _.
Arguments out_name {J} _.
Arguments out_description {J} _.
Arguments out_metadata {J} _.
Arguments out_tags {J} _.
Arguments out_is_stale {J} _.
Arguments out_created_at {J} _.
Arguments out_updated_at {J} _.

(** One error that pydantic reports for the value of a field: the place
    inside the value (empty for the value itself), the message and the
    type. *)
Record FieldError := {
  fe_path : list string;
  fe_msg : string;
  fe_type : string
}.

(** What pydantic makes of one key of a JSON object, for a field whose
    declared type is [A]: the key is absent; or its value is accepted and
    gives [a] (after the conversions pydantic applies); or its value is
    rejected, with the errors reported for it, at least one. A [null] is
    accepted where the field is [Optional] and rejected elsewhere. *)
Inductive Field (A : Type) :=
  | Absent
  | Valid (a : A)
  | Invalid (why : FieldError) (more : list FieldError).
Arguments Absent {A}.
Arguments Valid {A} a.
Arguments Invalid {A} why more.

(** A JSON object sent for one asset, before pydantic has built an
    [AssetCreate] from it: its six keys, as the fields of lines 72-77
    take them. Other keys are ignored by pydantic. *)
Record RawAsset (J : Type) := {
  raw_unique_id : Field string;
  raw_name : Field string;
  raw_description : Field (option string);
  raw_metadata : Field J;
  raw_tags : Field J;
  raw_is_stale : Field bool
}.
Arguments raw_unique_id {J} _.
Arguments raw_name {J} _.
Arguments raw_description {J} _.
Arguments raw_metadata {J} _.
Arguments raw_tags {J} _.
Arguments raw_is_stale {J} _.

(** One element of the list [assets] of a batch body: a JSON object, or
    another JSON value, for which pydantic reports one error (with its
    message and type) at the place of the element. *)
Inductive Item (J : Type) :=
  | Dict (raw : RawAsset J)
  | NotDict (msg type : string).
Arguments Dict {J} raw.
Arguments NotDict {J} msg type.

(** [class AssetUpdate(BaseModel)], lines 82-84; the handler never looks
    at [schema]. The tables of this development have the nine columns
    of [Row], each of its type; [data] is taken among the dictionaries
    that keep a table so: those with these nine keys and such values.
    (A dictionary with other keys, or without some of them, changes the
    columns of the frame or their dtypes when it is appended, and what
    pandas does at lines 238 and 244 after that depends on them.) *)
Record AssetUpdate := {
  data : list Row;
  schema : option (list (string * string))
}.

(** Python's slice bounds: a negative bound counts from the end, and
    every bound is clipped to [0, n]. *)
Definition slice_bound (n i : Z) : Z :=
  if (i <? 0)%Z then Z.max (i + n) 0 else Z.min i n.

(** [df.iloc[start:stop]] *)
Definition iloc {A} (l : list A) (start stop : Z) : list A :=
  let n := Z.of_nat (length l) in
  let a := slice_bound n start in
  let b := slice_bound n stop in
  take (Z.to_nat (b - a)) (drop (Z.to_nat a) l).

(** [mask = df['unique_id'] == uid] *)
Definition eq_mask (uid : string) (ids : list string) : list bool :=
  map (λ u, bool_decide (u = uid)) ids.

(** [mask.any()] *)
Definition any (mask : list bool) : bool := existsb (λ b, b) mask.

(** The number of lines that a mask selects. *)
Definition selected (mask : list bool) : nat :=
  length (filter (λ b : bool, b = true) mask).

(** [df.loc[mask] = row], line 238, for a mask that selects a line.
    [row] comes from [iterrows()]: a Series whose labels are the names
    of the columns. In an assignment through [.loc] with a mask of
    lines, pandas aligns such a value on the labels of the selected
    lines, never on the columns: no cell of [row] reaches the frame, and
    the value to set is one NaN per selected line. The frame has nine
    columns of more than one dtype (text, and the booleans of
    [is_stale]), so the value is set column by column: pandas raises
    [ValueError] (Must have equal len keys and value when setting with
    an iterable) unless there are as many values as columns; with nine
    selected lines it puts NaN in the columns one after the other and
    raises [TypeError] at [is_stale], whose dtype cannot hold it (pandas
    3). The assignment never returns: this is the exception raised. *)
Definition loc_set (mask : list bool) : Exn :=
  if bool_decide (selected mask = 9) then TypeError else ValueError.

(** [df.loc[mask, 'created_at'].iloc[0]] *)
Definition first_created_at (mask : list bool) (rows : list Row) : result Exn string :=
  match filter (λ br : bool * Row, br.1 = true) (zip mask rows) with
  | [] => Err IndexError
  | br :: _ => Ok (created_at br.2)
  end.

Section handlers.
Context {J : Type} `{!JsonCodec J}.

(** [datetime.utcnow().isoformat()] *)
Definition utcnow (w : World J) : string * World J :=
  (clock w (ticks w),
   {| bucket := bucket w; puts := puts w;
      clock := clock w; ticks := S (ticks w) |}).

(** [s3_client.put_object(Bucket=BUCKET_NAME, Key=key, Body=...)] *)
Definition put_object (key : string) (o : Object J) (w : World J) : World J :=
  {| bucket := <[key := o]> (bucket w); puts := puts w ++ [key];
     clock := clock w; ticks := ticks w |}.

(** Lines 163-169 (and 223-229, 350-358): read the table of a type;
    [NoSuchKey] gives [pd.DataFrame()]. *)
Definition read_table (t : AssetType) (w : World J) : result Exn DataFrame :=
  match bucket w !! data_key t with
  | None => Ok NoColumns
  | Some (Parquet df) => Ok df
  | Some (JsonObject _) => Err ParquetError
  end.

(** The row built at lines 172-182 and 408-418. *)
Definition new_row (t : AssetType) (asset : AssetCreate J)
    (created updated : string) : Row :=
  {| asset_id := make_asset_id t (ac_unique_id asset);
     unique_id := ac_unique_id asset;
     name := ac_name asset;
     description := ac_description asset;
     metadata := json_dumps (ac_metadata asset);
     tags := json_dumps (ac_tags asset);
     is_stale := ac_is_stale asset;
     created_at := created;
     updated_at := updated |}.

(** [create_asset], lines 123-210. *)
Definition create_asset (t : AssetType) (asset : AssetCreate J) (w : World J)
  : result HTTPException (AssetOut J) * World J :=
  let asset_id := make_asset_id t (ac_unique_id asset) in
  let '(created, w) := utcnow w in
  let '(updated, w) := utcnow w in
  let doc := {| doc_asset_id := asset_id; doc_asset_type := t;
                doc_unique_id := ac_unique_id asset;
                doc_name := ac_name asset;
                doc_description := ac_description asset;
                doc_metadata := ac_metadata asset;
                doc_tags := ac_tags asset;
                doc_is_stale := ac_is_stale asset;
                doc_created_at := created;
                doc_updated_at := updated |} in
  let w := put_object (metadata_key asset_id) (JsonObject doc) w in
  match read_table t w with
  | Err e => (Err (HTTP500 e), w)
  | Ok df =>
      let df := concat_row df (new_row t asset created updated) in
      let w := put_object (data_key t) (Parquet df) w in
      (Ok {| out_id := asset_id; out_asset_type := t;
             out_unique_id := ac_unique_id asset;
             out_name := ac_name asset;
             out_description := ac_description asset;
             out_metadata := ac_metadata asset;
             out_tags := ac_tags asset;
             out_is_stale := ac_is_stale asset;
             out_created_at := created;
             out_updated_at := updated |}, w)
  end.

(** One turn of the loop of lines 235-240. *)
Definition update_step (df : DataFrame) (row : Row) : result Exn DataFrame :=
  match col_unique_id df with
  | Err e => Err e
  | Ok ids =>
      let mask := eq_mask (unique_id row) ids in
      if any mask then Err (loc_set mask)
      else Ok (concat_row df row)
  end.

Fixpoint update_loop (df : DataFrame) (rows : list Row) : result Exn DataFrame :=
  match rows with
  | [] => Ok df
  | row :: rest =>
      match update_step df row with
      | Err e => Err e
      | Ok df' => update_loop df' rest
      end
  end.

(** [update_asset], lines 212-255; the answer is the count in
    ["Successfully updated {len(asset.data)} assets"]. *)
Definition update_asset (t : AssetType) (asset : AssetUpdate) (w : World J)
  : result HTTPException nat * World J :=
  match read_table t w with
  | Err e => (Err (HTTP500 e), w)
  | Ok df =>
      match update_loop df (data asset) with
      | Err e => (Err (HTTP500 e), w)
      | Ok df' =>
          (Ok (length (data asset)), put_object (data_key t) (Parquet df') w)
      end
  end.

(** The dictionary built for one line at lines 298-318; JSON text that
    does not parse degrades to [{}]. *)
Definition listed (t : AssetType) (row : Row) : AssetOut J :=
  {| out_id := asset_id row; out_asset_type := t;
     out_unique_id := unique_id row;
     out_name := name row;
     out_description := description row;
     out_metadata := default json_empty (json_loads (metadata row));
     out_tags := default json_empty (json_loads (tags row));
     out_is_stale := is_stale row;
     out_created_at := created_at row;
     out_updated_at := updated_at row |}.

(** [list_assets_by_type], lines 257-326. [page] and [limit] are the
    query parameters, which FastAPI has checked against [ge=1] and
    [le=1000] before the handler runs. *)
Definition list_assets_by_type (t : AssetType) (page limit : Z) (w : World J)
  : result HTTPException (list (AssetOut J)) :=
  match bucket w !! data_key t with
  | None => Ok []                              (* NoSuchKey *)
  | Some (JsonObject _) => Ok []               (* except Exception *)
  | Some (Parquet df) =>
      let total_count := Z.of_nat (len df) in
      let skip := ((page - 1) * limit)%Z in
      if (skip >=? total_count)%Z then Ok []
      else
        let end_idx := Z.min (skip + limit) total_count in
        let df_page := iloc (frame_rows df) skip end_idx in
        Ok (map (listed t) df_page)
  end.

(** [asset.model_dump()] *)
Definition model_dump (asset : AssetCreate J) : RawAsset J :=
  {| raw_unique_id := Valid (ac_unique_id asset);
     raw_name := Valid (ac_name asset);
     raw_description := Valid (ac_description asset);
     raw_metadata := Valid (ac_metadata asset);
     raw_tags := Valid (ac_tags asset);
     raw_is_stale := Valid (ac_is_stale asset) |}.

Definition missing (i : nat) (field : string) : ErrorDetail :=
  {| err_loc := (i, [field]); err_msg := "Field required"; err_type := "missing" |}.

(** The errors of one field of the [i]-th asset: an absent key is an
    error for a field without default; a rejected value gives the errors
    pydantic reports for it, placed below the field. *)
Definition field_errors {A} (i : nat) (field : string) (required : bool)
    (f : Field A) : list ErrorDetail :=
  match f with
  | Absent => if required then [missing i field] else []
  | Valid _ => []
  | Invalid why more =>
      map (λ e, {| err_loc := (i, field :: fe_path e);
                   err_msg := fe_msg e; err_type := fe_type e |})
          (why :: more)
  end.

(** The value of a field: the accepted value, or the default. *)
Definition field_value {A} (d : A) (f : Field A) : A :=
  match f with Valid a => a | _ => d end.

(** Building an [AssetCreate] from a JSON object, as pydantic does:
    every field is looked at, in the order of the class, and the errors
    of all of them are gathered; [unique_id] and [name] are required,
    the other fields have the defaults of lines 74-77. [i] is the place
    of the asset in its batch. *)
Definition validate (i : nat) (raw : RawAsset J)
  : result (list ErrorDetail) (AssetCreate J) :=
  let errors :=
    field_errors i "unique_id" true (raw_unique_id raw) ++
    field_errors i "name" true (raw_name raw) ++
    field_errors i "description" false (raw_description raw) ++
    field_errors i "metadata" false (raw_metadata raw) ++
    field_errors i "tags" false (raw_tags raw) ++
    field_errors i "is_stale" false (raw_is_stale raw) in
  match errors with
  | [] =>
      Ok {| ac_unique_id := field_value "" (raw_unique_id raw);
            ac_name := field_value "" (raw_name raw);
            ac_description := field_value None (raw_description raw);
            ac_metadata := field_value json_empty (raw_metadata raw);
            ac_tags := field_value json_empty (raw_tags raw);
            ac_is_stale := field_value false (raw_is_stale raw) |}
  | _ :: _ => Err errors
  end.

(** The same for an element of the list [assets]. *)
Definition validate_item (i : nat) (item : Item J)
  : result (list ErrorDetail) (AssetCreate J) :=
  match item with
  | Dict raw => validate i raw
  | NotDict msg type =>
      Err [{| err_loc := (i, []); err_msg := msg; err_type := type |}]
  end.

(** The loop of lines 339-347: the first asset that does not validate
    raises. *)
Fixpoint revalidate (i : nat) (assets : list (AssetCreate J)) : result Exn unit :=
  match assets with
  | [] => Ok ()
  | asset :: rest =>
      match validate i (model_dump asset) with
      | Err errs => Err (ValidationError errs)
      | Ok _ => revalidate (S i) rest
      end
  end.

(** One turn of the loop of lines 365-424, on the frame and the list
    [new_rows]. The clock is read before the mask is taken. *)
Definition batch_step (t : AssetType) (st : DataFrame * list Row * World J)
    (asset : AssetCreate J) : result Exn (DataFrame * list Row) * World J :=
  let '(df, new_rows, w) := st in
  let '(now, w) := utcnow w in
  match col_unique_id df with
  | Err e => (Err e, w)
  | Ok ids =>
      let existing_mask := eq_mask (ac_unique_id asset) ids in
      if bool_decide (0 < len df) && any existing_mask then
        match first_created_at existing_mask (frame_rows df) with
        | Err e => (Err e, w)
        | Ok created =>
            let upd (b : bool) (r : Row) :=
              if b then
                {| asset_id := asset_id r; unique_id := unique_id r;
                   name := ac_name asset;
                   description := ac_description asset;
                   metadata := json_dumps (ac_metadata asset);
                   tags := json_dumps (ac_tags asset);
                   is_stale := ac_is_stale asset;
                   created_at := created_at r;
                   updated_at := now |}
              else r in
            (Ok (Frame (zip_with upd existing_mask (frame_rows df)),
                 new_rows ++ [new_row t asset created now]), w)
        end
      else
        let row := new_row t asset now now in
        (Ok (concat_row df row, new_rows ++ [row]), w)
  end.

Fixpoint batch_loop (t : AssetType) (df : DataFrame) (new_rows : list Row)
    (w : World J) (assets : list (AssetCreate J))
  : result Exn (DataFrame * list Row) * World J :=
  match assets with
  | [] => (Ok (df, new_rows), w)
  | asset :: rest =>
      match batch_step t (df, new_rows, w) asset with
      | (Err e, w) => (Err e, w)
      | (Ok (df, new_rows), w) => batch_loop t df new_rows w rest
      end
  end.

(** One entry of [response_data], lines 439-450; [json.loads] raises on
    text that does not parse. *)
Definition responded (t : AssetType) (row : Row) : result Exn (AssetOut J) :=
  match json_loads (metadata row), json_loads (tags row) with
  | Some m, Some tg =>
      Ok {| out_id := asset_id row; out_asset_type := t;
            out_unique_id := unique_id row;
            out_name := name row;
            out_description := description row;
            out_metadata := m; out_tags := tg;
            out_is_stale := is_stale row;
            out_created_at := created_at row;
            out_updated_at := updated_at row |}
  | _, _ => Err JSONDecodeError
  end.

Fixpoint response_data (t : AssetType) (new_rows : list Row)
  : result Exn (list (AssetOut J)) :=
  match new_rows with
  | [] => Ok []
  | row :: rest =>
      match responded t row with
      | Err e => Err e
      | Ok a =>
          match response_data t rest with
          | Err e => Err e
          | Ok l => Ok (a :: l)
          end
      end
  end.

(** The two [except] clauses of lines 453-467. *)
Definition to_http (e : Exn) : HTTPException :=
  match e with
  | ValidationError errs => HTTP422 errs
  | e => HTTP500 e
  end.

(** [create_assets_batch], lines 328-467, as called with a validated
    [batch.assets]. *)
Definition create_assets_batch (t : AssetType) (assets : list (AssetCreate J))
    (w : World J) : result HTTPException (list (AssetOut J)) * World J :=
  match revalidate 0 assets with
  | Err e => (Err (to_http e), w)
  | Ok _ =>
      match read_table t w with
      | Err e => (Err (to_http e), w)
      | Ok df =>
          match batch_loop t df [] w assets with
          | (Err e, w) => (Err (to_http e), w)
          | (Ok (df, new_rows), w) =>
              let w := put_object (data_key t) (Parquet df) w in
              match response_data t new_rows with
              | Err e => (Err (to_http e), w)
              | Ok resp => (Ok resp, w)
              end
          end
      end
  end.

(** FastAPI binds the body of [POST /assets/{asset_type}/batch] to
    [batch: AssetBatchCreate] (line 331) before the handler runs: every
    asset of the body is validated, all errors are collected, and a
    body with an error is answered 422 without the handler being
    called. *)
Fixpoint parse_batch (i : nat) (body : list (Item J))
  : result (list ErrorDetail) (list (AssetCreate J)) :=
  match body with
  | [] => Ok []
  | item :: rest =>
      match validate_item i item, parse_batch (S i) rest with
      | Ok a, Ok l => Ok (a :: l)
      | Ok _, Err errs => Err errs
      | Err errs, Ok _ => Err errs
      | Err errs, Err errs' => Err (errs ++ errs')
      end
  end.

Definition post_assets_batch (t : AssetType) (body : list (Item J))
    (w : World J) : result HTTPException (list (AssetOut J)) * World J :=
  match parse_batch 0 body with
  | Err errs => (Err (HTTP422 errs), w)
  | Ok assets => create_assets_batch t assets w
  end.

End handlers.

End DataLayer.

(** * src/microservices/data-access-service/src/data_layer_client.py *)
Module DataLayerClient.

(** One asset as the client handles it: a dictionary with the key
    ['UniqueId'] and its other columns. *)
Record Asset := {
  UniqueId : string;
  columns : list (string * string)
}.

(** [pd.DataFrame(assets)] over such dictionaries, one line each, and
    [df.to_dict('records')] back. *)
Definition DataFrame := list Asset.

(** [df.empty] *)
Definition empty (df : DataFrame) : bool :=
  match df with [] => true | _ => false end.

(** [set(df['UniqueId'])] *)
Definition id_set (df : DataFrame) : gset string :=
  list_to_set (map UniqueId df).

(** The exceptions of the client: the two [ValueError]s of lines 143 and
    175, whose message prints the set, a failed HTTP call
    ([raise_for_status] or the transport), and an exception raised
    inside pandas, with its message. *)
Inductive Exn :=
  | DuplicateUniqueIds (duplicate_ids : gset string)
  | AssetsNotFound (missing_ids : gset string)
  | HTTPError (status : Z)
  | PandasError (message : string).

(** One line of [existing_df] once line 191 has assigned to it: a
    dictionary as before, or a line all of whose cells, ['UniqueId']
    included, are NaN. *)
Inductive Line :=
  | Cells (a : Asset)
  | AllNaN.

(** The calls made on the HTTP client. [POST_lines] is the upload of a
    frame that has a line without cells. *)
Inductive Call :=
  | GET (asset_type : string)
  | POST (asset_type : string) (rows : list Asset)
  | POST_lines (asset_type : string) (lines : list Line).

(** The remote side of [/data/type/{asset_type}] is not part of this
    file: it is a parameter, a state [St] with the outcome of a GET and
    of a POST once [raise_for_status] has been applied. *)
Class Remote (St : Type) := {
  serve_get : string → St → result Exn (list Asset) * St;
  serve_post : string → list Asset → St → result Exn () * St;
  serve_post_lines : string → list Line → St → result Exn () * St
}.

(** [df.loc[mask] = row] of line 191, with [row] a Series that comes
    from [iterrows()]. pandas aligns such a value on the labels of the
    selected lines, not on the columns, so that no cell of [row] is
    written: depending on the version of pandas and on the number and
    the dtypes of the columns, the selected lines are left with NaN in
    every cell, or the assignment raises. The dictionaries of [Asset] do
    not say which: the assignment is an operation of the library, given
    the frame, the mask and the row, about which nothing is assumed. *)
Class Pandas := {
  loc_setitem : list Line → list bool → Asset → result Exn (list Line)
}.

(** The remote state and the calls issued so far (latest last). *)
Record World (St : Type) := {
  remote : St;
  calls : list Call
}.
Arguments remote {St} _.
Arguments calls {St} _.

Section client.
Context {St : Type} `{!Remote St} `{!Pandas}.

(** [read_assets], lines 77-87. The client is built with a token
    (storage.py, line 24), so [_ensure_authenticated] does nothing. *)
Definition read_assets (asset_type : string) (w : World St)
  : result Exn DataFrame * World St :=
  let '(r, s) := serve_get asset_type (remote w) in
  (r, {| remote := s; calls := calls w ++ [GET asset_type] |}).

(** [write_assets], lines 89-128: the frame is sent as one CSV upload. *)
Definition write_assets (asset_type : string) (assets : list Asset)
    (w : World St) : result Exn () * World St :=
  let '(r, s) := serve_post asset_type assets (remote w) in
  (r, {| remote := s; calls := calls w ++ [POST asset_type assets] |}).

(** The check of lines 139-143: the exception it raises, if any. *)
Definition duplicate_check (existing_df new_df : DataFrame) : option Exn :=
  if negb (empty existing_df) && negb (empty new_df) then
    let duplicate_ids := id_set new_df ∩ id_set existing_df in
    if bool_decide (duplicate_ids ≠ ∅)
    then Some (DuplicateUniqueIds duplicate_ids)
    else None
  else None.

(** [batch_create_assets], lines 130-160. *)
Definition batch_create_assets (asset_type : string) (assets : list Asset)
    (w : World St) : result Exn (list Asset) * World St :=
  match read_assets asset_type w with
  | (Err e, w) => (Err e, w)
  | (Ok existing_df, w) =>
      let new_df : DataFrame := assets in
      match duplicate_check existing_df new_df with
      | Some e => (Err e, w)
      | None =>
          let combined_df :=
            if empty existing_df then new_df
            else if empty new_df then existing_df
            else existing_df ++ new_df in
          match write_assets asset_type combined_df w with
          | (Err e, w) => (Err e, w)
          | (Ok _, w) => (Ok new_df, w)
          end
      end
  end.

(** The check of lines 171-175: the exception it raises, if any. *)
Definition missing_check (existing_df update_df : DataFrame) : option Exn :=
  if negb (empty existing_df) && negb (empty update_df) then
    let missing_ids := id_set update_df ∖ id_set existing_df in
    if bool_decide (missing_ids ≠ ∅)
    then Some (AssetsNotFound missing_ids)
    else None
  else None.

(** [existing_df['UniqueId'].isin(update_df['UniqueId'])] *)
Definition isin_mask (existing_df update_df : DataFrame) : list bool :=
  map (λ r, bool_decide (UniqueId r ∈ map UniqueId update_df)) existing_df.

(** [df[mask]] *)
Definition select {A} (mask : list bool) (df : list A) : list A :=
  (filter (λ br : bool * A, br.1 = true) (zip mask df)).*2.

(** [existing_df['UniqueId'] == row['UniqueId']], line 191; NaN is equal
    to nothing. *)
Definition eq_mask (row : Asset) (existing_df : list Line) : list bool :=
  map (λ l, match l with
            | Cells r => bool_decide (UniqueId r = UniqueId row)
            | AllNaN => false
            end) existing_df.

(** The loop of lines 190-191; an exception of the assignment leaves
    it. *)
Fixpoint update_loop (existing_df : list Line) (update_df : DataFrame)
  : result Exn (list Line) :=
  match update_df with
  | [] => Ok existing_df
  | row :: rest =>
      match loc_setitem existing_df (eq_mask row existing_df) row with
      | Err e => Err e
      | Ok existing_df => update_loop existing_df rest
      end
  end.

(** The dictionaries of a frame all of whose lines have their cells. *)
Definition records (lines : list Line) : option (list Asset) :=
  mapM (λ l, match l with Cells a => Some a | AllNaN => None end) lines.

(** [write_assets] (lines 89-128) on the lines of a frame. *)
Definition write_lines (asset_type : string) (lines : list Line)
    (w : World St) : result Exn () * World St :=
  match records lines with
  | Some assets => write_assets asset_type assets w
  | None =>
      let '(r, s) := serve_post_lines asset_type lines (remote w) in
      (r, {| remote := s; calls := calls w ++ [POST_lines asset_type lines] |})
  end.

(** [batch_update_assets], lines 162-203. *)
Definition batch_update_assets (asset_type : string) (updates : list Asset)
    (w : World St) : result Exn (list Asset) * World St :=
  match read_assets asset_type w with
  | (Err e, w) => (Err e, w)
  | (Ok existing_df, w) =>
      let update_df : DataFrame := updates in
      match missing_check existing_df update_df with
      | Some e => (Err e, w)
      | None =>
          if empty existing_df then (Ok updates, w)
          else if empty update_df then (Ok [], w)
          else
            let mask := isin_mask existing_df update_df in
            let non_matching_df := select (map negb mask) existing_df in
            match update_loop (map Cells existing_df) update_df with
            | Err e => (Err e, w)
            | Ok existing_df =>
                let combined_df :=
                  map Cells non_matching_df ++ select mask existing_df in
                match write_lines asset_type combined_df w with
                | (Err e, w) => (Err e, w)
                | (Ok _, w) => (Ok update_df, w)
                end
            end
      end
  end.

End client.

End DataLayerClient.

(** * src/microservices/data-access-service/src/service.py *)
Module DataAccessService.

Import DataLayer(AssetType, value, RawAsset, Field).

(** [str.lower] *)
Definition lower_ascii (c : ascii) : ascii :=
  let n := nat_of_ascii c in
  if ((65 <=? n)%nat && (n <=? 90)%nat)%bool then ascii_of_nat (n + 32) else c.

Fixpoint lower (s : string) : string :=
  match s with
  | EmptyString => EmptyString
  | String c s => String (lower_ascii c) (lower s)
  end.

(** What the HTTP client gives back: a response with its status code
    and body, or an exception of the transport (no response). *)
Inductive Outcome (B : Type) :=
  | Response (status_code : Z) (body : B)
  | RequestError.
Arguments Response {B} status_code body.
Arguments RequestError {B}.

(** [response.raise_for_status()] passes on a 2xx status. *)
Definition is_success (status_code : Z) : bool :=
  (200 <=? status_code)%Z && (status_code <=? 299)%Z.

(** The two POSTs of [create_assets_batch]: to
    [/assets/{asset_type_str}/batch] and to [/assets/{asset_type_str}]. *)
Inductive Request (J : Type) :=
  | PostBatch (asset_type_str : string) (assets : list (RawAsset J))
  | PostAsset (asset_type_str : string) (formatted_asset : RawAsset J).
Arguments PostBatch {J} asset_type_str assets.
Arguments PostAsset {J} asset_type_str formatted_asset.

(** The data layer behind the HTTP client, with state [St] and bodies
    [B], and the pydantic model [Asset] of schemas.py built from a body:
    [parse_asset] is [Asset] applied to the fields of [response.json()],
    [parse_assets] the list comprehension of line 102; [None] is an
    exception. *)
Class Backend (J St B Asset : Type) := {
  serve : Request J → St → Outcome B * St;
  parse_asset : B → option Asset;
  parse_assets : B → option (list Asset)
}.

(** The state behind the client, the requests sent (latest last) and
    the indices logged at line 134. *)
Record World (J St : Type) := {
  backend : St;
  requests : list (Request J);
  failed : list nat
}.
Arguments backend {J St} _.
Arguments requests {J St} _.
Arguments failed {J St} _.

(** What [create_assets_batch] raises: [HTTPException(status_code=500)]. *)
Inductive HTTPException := HTTP500.

Section service.
Context {J St B Asset : Type} `{!JsonCodec J} `{!Backend J St B Asset}.

(** [await self.client.post(url, json=...)] *)
Definition post (rq : Request J) (w : World J St) : Outcome B * World J St :=
  let '(out, s) := serve rq (backend w) in
  (out, {| backend := s; requests := requests w ++ [rq]; failed := failed w |}).

(** [asset.get(key, default)]: the value of the key, whatever it is
    ([null] included), and the default only when the key is absent. *)
Definition get {A} (f : Field A) (d : A) : Field A :=
  match f with
  | DataLayer.Absent => DataLayer.Valid d
  | f => f
  end.

(** Lines 119-126: a dictionary with the six keys of [AssetCreate]. *)
Definition formatted_asset (asset : RawAsset J) : RawAsset J :=
  {| DataLayer.raw_unique_id := get (DataLayer.raw_unique_id asset) "";
     DataLayer.raw_name := get (DataLayer.raw_name asset) "";
     DataLayer.raw_description := get (DataLayer.raw_description asset) (Some "");
     DataLayer.raw_metadata := get (DataLayer.raw_metadata asset) json_empty;
     DataLayer.raw_tags := get (DataLayer.raw_tags asset) json_empty;
     DataLayer.raw_is_stale := get (DataLayer.raw_is_stale asset) false |}.

(** The body of the [try] of lines 117-132: [Some] the created asset, or
    [None] when an exception is raised. *)
Definition create_individual (asset_type_str : string) (asset : RawAsset J)
    (w : World J St) : option Asset * World J St :=
  let '(out, w) := post (PostAsset asset_type_str (formatted_asset asset)) w in
  match out with
  | RequestError => (None, w)
  | Response status_code body =>
      if is_success status_code then (parse_asset body, w) else (None, w)
  end.

(** The loop of lines 116-134, from index [i] on. *)
Fixpoint fallback (asset_type_str : string) (i : nat)
    (assets : list (RawAsset J)) (created_assets : list Asset)
    (w : World J St) : list Asset * World J St :=
  match assets with
  | [] => (created_assets, w)
  | asset :: rest =>
      match create_individual asset_type_str asset w with
      | (Some created_asset, w) =>
          fallback asset_type_str (S i) rest (created_assets ++ [created_asset]) w
      | (None, w) =>
          fallback asset_type_str (S i) rest created_assets
            {| backend := backend w; requests := requests w;
               failed := failed w ++ [i] |}
      end
  end.

(** [create_assets_batch], lines 87-139. *)
Definition create_assets_batch (asset_type : AssetType)
    (assets : list (RawAsset J)) (w : World J St)
  : result HTTPException (list Asset) * World J St :=
  let asset_type_str := lower (value asset_type) in
  let '(out, w) := post (PostBatch asset_type_str assets) w in
  match out with
  | RequestError => (Err HTTP500, w)
  | Response status_code body =>
      if is_success status_code then
        match parse_assets body with
        | Some l => (Ok l, w)
        | None => (Err HTTP500, w)
        end
      else
        let '(created_assets, w) := fallback asset_type_str 0 assets [] w in
        (Ok created_assets, w)
  end.

End service.

End DataAccessService.

(** * Reading the tables, and what the handlers are compared with *)
Module DataLayerSpec.
Import DataLayer.

(** The lines stored for a type (none when the key is absent or does
    not hold a table). *)
Definition table_rows {J} `{!JsonCodec J} (t : AssetType) (w : World J) : list Row :=
  match read_table t w with
  | Ok df => frame_rows df
  | Err _ => []
  end.

(** The world after [n] more readings of the clock. *)
Definition advance {J} (n : nat) (w : World J) : World J :=
  {| bucket := bucket w; puts := puts w; clock := clock w;
     ticks := n + ticks w |}.

(** Running [create_asset] on a list of assets, one call after the
    other. *)
Fixpoint create_all {J} `{!JsonCodec J} (t : AssetType)
    (assets : list (AssetCreate J)) (w : World J)
  : list (result HTTPException (AssetOut J)) * World J :=
  match assets with
  | [] => ([], w)
  | a :: rest =>
      let '(r, w) := create_asset t a w in
      let '(rs, w) := create_all t rest w in
      (r :: rs, w)
  end.

(** The identifier as the specification words it:
    ["{asset_type}_{unique_id}"]. *)
Definition spec_asset_id (t : AssetType) (uid : string) : string :=
  value t +:+ "_" +:+ uid.

(** Every line carries the identifier derived from its [unique_id]. *)
Definition ids_derived (t : AssetType) (rows : list Row) : Prop :=
  Forall (λ r, asset_id r = make_asset_id t (unique_id r)) rows.

(** The fields a batch overwrites on a stored line: [name],
    [description], [metadata], [tags], [is_stale] and [updated_at]. *)
Definition touched {J} `{!JsonCodec J} (a : AssetCreate J) (now : string)
    (r : Row) : Row :=
  {| asset_id := asset_id r; unique_id := unique_id r;
     name := ac_name a; description := ac_description a;
     metadata := json_dumps (ac_metadata a);
     tags := json_dumps (ac_tags a);
     is_stale := ac_is_stale a;
     created_at := created_at r; updated_at := now |}.

(** Upsert of one record of a batch at time [now]: the lines afterwards,
    and the line reported for the record. A record whose [unique_id] is
    stored updates every line that has it and is reported with the
    [created_at] of the first of them; another record is appended with
    [created_at = updated_at = now]. *)
Definition batch_rows {J} `{!JsonCodec J} (t : AssetType) (a : AssetCreate J)
    (now : string) (rows : list Row) : list Row * Row :=
  match filter (λ r, unique_id r = ac_unique_id a) rows with
  | r0 :: _ =>
      (map (λ r, if bool_decide (unique_id r = ac_unique_id a)
                 then touched a now r else r) rows,
       new_row t a (created_at r0) now)
  | [] =>
      (rows ++ [new_row t a now now], new_row t a now now)
  end.

(** Upsert of a batch, the [i]-th record at time [clk (n + i)]. *)
Fixpoint batch_fold {J} `{!JsonCodec J} (t : AssetType)
    (assets : list (AssetCreate J)) (clk : nat → string) (n : nat)
    (rows : list Row) : list Row * list Row :=
  match assets with
  | [] => (rows, [])
  | a :: rest =>
      let '(rows, x) := batch_rows t a (clk n) rows in
      let '(rows, xs) := batch_fold t rest clk (S n) rows in
      (rows, x :: xs)
  end.

(** The answer for a record stored with the given timestamps. *)
Definition answer {J} (t : AssetType) (a : AssetCreate J)
    (created updated : string) : AssetOut J :=
  {| out_id := make_asset_id t (ac_unique_id a); out_asset_type := t;
     out_unique_id := ac_unique_id a; out_name := ac_name a;
     out_description := ac_description a;
     out_metadata := ac_metadata a; out_tags := ac_tags a;
     out_is_stale := ac_is_stale a;
     out_created_at := created; out_updated_at := updated |}.

(** The lines at positions [a] (included) to [b] (excluded). *)
Definition between {A} (a b : nat) (l : list A) : list A :=
  take (b - a) (drop a l).

(** The assets listed on a page. *)
Definition page_of {J} `{!JsonCodec J} (t : AssetType) (limit : Z)
    (w : World J) (page : Z) : list (AssetOut J) :=
  match list_assets_by_type t page limit w with
  | Ok l => l
  | Err _ => []
  end.

End DataLayerSpec.

Module DataAccessServiceSpec.
Import DataLayer(AssetType, value, RawAsset).
Import DataAccessService.

(** The individual creates for a list of assets, one after the other:
    what each gave ([None] for a failure), and the world afterwards. *)
Fixpoint attempts {J St B Asset} `{!JsonCodec J} `{!Backend J St B Asset}
    (asset_type_str : string) (assets : list (RawAsset J)) (w : World J St)
  : list (option Asset) * World J St :=
  match assets with
  | [] => ([], w)
  | a :: rest =>
      let '(o, w) := create_individual asset_type_str a w in
      let '(os, w) := attempts asset_type_str rest w in
      (o :: os, w)
  end.

(** The world with the list of logged failures replaced. *)
Definition with_failed {J St} (f : list nat) (w : World J St) : World J St :=
  {| backend := backend w; requests := requests w; failed := f |}.

(** The places, counted from [i], of the creates that failed. *)
Fixpoint failures {A} (i : nat) (os : list (option A)) : list nat :=
  match os with
  | [] => []
  | Some _ :: os => failures (S i) os
  | None :: os => i :: failures (S i) os
  end.

End DataAccessServiceSpec.

(** * Sample data

    A codec, a clock and a few assets and tables on which the handlers
    are run. *)
Module Samples.
Import DataLayer.

(** JSON text standing for itself. *)
#[export] Instance text_codec : JsonCodec string :=
  {| json_dumps := λ s, s;
     json_loads := Some;
     json_empty := "{}";
     json_loads_dumps := λ _, eq_refl |}.

(** The [n]-th reading of the clock is ["t<n>"]. *)
Definition stamp (n : nat) : string := "t" +:+ pretty n.

(** An empty bucket. *)
Definition fresh : World string :=
  {| bucket := ∅; puts := []; clock := stamp; ticks := 0 |}.

Definition asset (uid nm : string) : AssetCreate string :=
  {| ac_unique_id := uid; ac_name := nm; ac_description := None;
     ac_metadata := "{}"; ac_tags := "{}"; ac_is_stale := false |}.

(** A JSON object with the keys [unique_id] and [name], or without one
    of them, and no other key. *)
Definition given {A} (o : option A) : Field A :=
  match o with Some a => Valid a | None => Absent end.

Definition raw (uid nm : option string) : RawAsset string :=
  {| raw_unique_id := given uid; raw_name := given nm;
     raw_description := Absent; raw_metadata := Absent; raw_tags := Absent;
     raw_is_stale := Absent |}.

(** What pydantic reports for a [null] where a string is expected, and
    for a string that is no boolean. *)
Definition not_a_string : FieldError :=
  {| fe_path := []; fe_msg := "Input should be a valid string";
     fe_type := "string_type" |}.
Definition not_a_boolean : FieldError :=
  {| fe_path := [];
     fe_msg := "Input should be a valid boolean, unable to interpret input";
     fe_type := "bool_parsing" |}.

(** The object [{unique_id: uid, name: null}], and the object
    [{unique_id: uid, name: nm, is_stale: "later"}]. *)
Definition null_name (uid : string) : RawAsset string :=
  {| raw_unique_id := Valid uid; raw_name := Invalid not_a_string [];
     raw_description := Absent; raw_metadata := Absent; raw_tags := Absent;
     raw_is_stale := Absent |}.
Definition ill_typed (uid nm : string) : RawAsset string :=
  {| raw_unique_id := Valid uid; raw_name := Valid nm;
     raw_description := Absent; raw_metadata := Absent; raw_tags := Absent;
     raw_is_stale := Invalid not_a_boolean [] |}.

(** The bucket after [ec2] asset ["i-1"] has been created. *)
Definition one_ec2 : World string := (create_asset EC2 (asset "i-1" "web") fresh).2.

(** A line for [ec2] record ["i-1"] as a caller of [update_asset] may
    send it. *)
Definition renamed : Row :=
  {| asset_id := "AssetType.ec2_i-1"; unique_id := "i-1";
     name := "renamed"; description := None;
     metadata := "{}"; tags := "{}"; is_stale := false;
     created_at := "c9"; updated_at := "u9" |}.

(** A table of three [ec2] records. *)
Definition line (uid nm stamp : string) : Row :=
  {| asset_id := make_asset_id EC2 uid; unique_id := uid; name := nm;
     description := None; metadata := "{}"; tags := "{}";
     is_stale := false; created_at := stamp; updated_at := stamp |}.

Definition three_lines : list Row :=
  [line "i-1" "a" "t0"; line "i-2" "b" "t1"; line "i-3" "c" "t2"].

Definition three_ec2 : World string :=
  {| bucket := {[ data_key EC2 := Parquet (Frame three_lines) ]};
     puts := []; clock := stamp; ticks := 3 |}.

End Samples.

(** Sample data for the client: a remote that keeps, for each asset
    type, the table last posted, reads a type never posted as an empty
    table, and refuses a frame that has a line without cells. *)
Module ClientSamples.
Import DataLayerClient.

#[export] Instance table_remote : Remote (gmap string (list Asset)) :=
  {| serve_get := λ t s, (Ok (default [] (s !! t)), s);
     serve_post := λ t rows s, (Ok (), <[t := rows]> s);
     serve_post_lines := λ t lines s, (Err (HTTPError 422), s) |}.

(** A pandas whose assignment leaves the selected lines without
    cells. *)
#[export] Instance blanking : Pandas :=
  {| loc_setitem := λ lines mask row,
       Ok (zip_with (λ (b : bool) l, if b then AllNaN else l) mask lines) |}.

Definition row (uid state : string) : Asset :=
  {| UniqueId := uid; columns := [("State", state)] |}.

(** No table at all, and a table of one [ec2] asset. *)
Definition nothing : World (gmap string (list Asset)) :=
  {| remote := ∅; calls := [] |}.
Definition one_row : World (gmap string (list Asset)) :=
  {| remote := {["ec2" := [row "i-1" "running"]]}; calls := [] |}.

End ClientSamples.

(** Sample data for the service: a data layer that rejects every batch
    with 500 and a single asset with 422 when its name is empty, and
    answers the [unique_id] of an asset it accepts. *)
Module ServiceSamples.
Import DataLayer(AssetType, value, RawAsset).
Import DataAccessService.

#[export] Instance picky_backend : Backend string (list string) string string :=
  {| serve := λ rq s,
       match rq with
       | PostBatch _ _ => (Response 500 "KeyError", s)
       | PostAsset _ a =>
           match DataLayer.raw_unique_id a, DataLayer.raw_name a with
           | DataLayer.Valid uid, DataLayer.Valid nm =>
               if bool_decide (nm = "") then (Response 422 "name", s)
               else (Response 200 uid, s ++ [uid])
           | _, _ => (Response 422 "missing", s)
           end
       end;
     parse_asset := Some;
     parse_assets := λ _, None |}.

Definition start : World string (list string) :=
  {| backend := []; requests := []; failed := [] |}.

(** Five records: the second has no name, the fourth an empty one. *)
Definition five : list (RawAsset string) :=
  [Samples.raw (Some "i-1") (Some "a"); Samples.raw (Some "i-2") None;
   Samples.raw (Some "i-3") (Some "c"); Samples.raw (Some "i-4") (Some "");
   Samples.raw (Some "i-5") (Some "e")].

End ServiceSamples.

(** * src/data-layer/main.py, the other routes *)
Module DataLayerRoutes.
Import DataLayer.

(** The members of [AssetType], in the order of the class. *)
Definition all_types : list AssetType :=
  [VPC; SUBNET; EC2; S3; IAM_ROLE; SECURITY_GROUP; USER; IGW; NI; LAMBDA;
   IAM_POLICY].

(** The path parameter [asset_type] read back into the enumeration. *)
Definition asset_type_of (s : string) : option AssetType :=
  head (filter (λ t, value t = s) all_types).

(** A value given to [page] or [limit] when [list_assets_by_type] is
    called as a Python function instead of through its route: an
    integer, a string, or the default of the signature, which is the
    object [Query(...)] itself. *)
Inductive PyArg :=
  | PyInt (z : Z)
  | PyStr (s : string)
  | PyDefault.

(** What [list_all_assets] raises: [HTTPException(status_code=500,
    detail=str(e))] for whatever [e] was raised inside. *)
Inductive Rewrapped := Rewrapped500 (e : HTTPException).

Section routes.
Context {J : Type} `{!JsonCodec J}.

(** [list_assets_by_type] (lines 257-326) called directly. Only with two
    integers can [skip = (page - 1) * limit] and [skip >= total_count]
    be evaluated: any other pair raises [TypeError] inside the inner
    [try], after the table has been read, and the clause
    [except Exception] of line 291 returns the empty list. *)
Definition list_assets_by_type_call (t : AssetType) (page limit : PyArg)
    (w : World J) : result HTTPException (list (AssetOut J)) :=
  match bucket w !! data_key t with
  | None => Ok []
  | Some (JsonObject _) => Ok []
  | Some (Parquet df) =>
      match page, limit with
      | PyInt p, PyInt l => list_assets_by_type t p l w
      | _, _ => Ok []
      end
  end.

(** [list_all_assets], lines 469-493. The calls of lines 478 and 484
    are [list_assets_by_type(asset_type, token)]: the token is the second
    positional argument, [page], and [limit] keeps its default. *)
Definition list_all_assets (asset_type : option AssetType) (token : string)
    (w : World J) : result Rewrapped (list (AssetOut J)) :=
  match asset_type with
  | Some t =>
      match list_assets_by_type_call t (PyStr token) PyDefault w with
      | Ok assets => Ok assets
      | Err e => Err (Rewrapped500 e)
      end
  | None =>
      Ok (fold_left
            (λ all_assets current_type,
               match list_assets_by_type_call current_type (PyStr token)
                       PyDefault w with
               | Ok assets => all_assets ++ assets
               | Err _ => all_assets
               end)
            all_types [])
  end.

(** [POST /assets/{asset_type}]: FastAPI binds the body to
    [asset: AssetCreate] (line 126) and answers 422 without calling
    [create_asset] when it does not validate. *)
Definition post_asset (t : AssetType) (body : RawAsset J) (w : World J)
  : result HTTPException (AssetOut J) * World J :=
  match validate 0 body with
  | Err errs => (Err (HTTP422 errs), w)
  | Ok asset => create_asset t asset w
  end.

End routes.

End DataLayerRoutes.

(** What the further properties of the data layer are stated with. *)
Module DataLayerInvariants.
Import DataLayer.

(** What identifies a line and is never rewritten by a batch: its
    [asset_id], [unique_id] and [created_at]. *)
Definition key (r : Row) : string * string * string :=
  (asset_id r, unique_id r, created_at r).

(** A line with its [updated_at] blanked. *)
Definition but_updated_at (r : Row) : Row :=
  {| asset_id := asset_id r; unique_id := unique_id r; name := name r;
     description := description r; metadata := metadata r; tags := tags r;
     is_stale := is_stale r; created_at := created_at r; updated_at := "" |}.

(** The [unique_id]s of a list of lines. *)
Definition unique_ids (rows : list Row) : list string := map unique_id rows.

(** A line carries the fields of a record. *)
Definition carries {J} `{!JsonCodec J} (r : Row) (a : AssetCreate J) : Prop :=
  name r = ac_name a ∧ description r = ac_description a ∧
  metadata r = json_dumps (ac_metadata a) ∧
  tags r = json_dumps (ac_tags a) ∧ is_stale r = ac_is_stale a.

(** The update of one line by one record of a batch. *)
Definition touch_if {J} `{!JsonCodec J} (a : AssetCreate J) (now : string)
    (r : Row) : Row :=
  if bool_decide (unique_id r = ac_unique_id a)
  then DataLayerSpec.touched a now r else r.

(** The updates of one line by the records of a batch, in order. *)
Fixpoint touch_all {J} `{!JsonCodec J} (assets : list (AssetCreate J))
    (clk : nat → string) (n : nat) (r : Row) : Row :=
  match assets with
  | [] => r
  | a :: rest => touch_all rest clk (S n) (touch_if a (clk n) r)
  end.

(** The last record of a batch with a given [unique_id]. *)
Fixpoint last_match {J} (assets : list (AssetCreate J)) (uid : string)
  : option (AssetCreate J) :=
  match assets with
  | [] => None
  | a :: rest =>
      match last_match rest uid with
      | Some x => Some x
      | None => if bool_decide (ac_unique_id a = uid) then Some a else None
      end
  end.

(** The input rows of an update bring only new [unique_id]s: no two of
    them have the same, and none has a stored one. *)
Definition brings_new (rows input : list Row) : Prop :=
  NoDup (unique_ids input) ∧
  ∀ u, u ∈ unique_ids input → u ∉ unique_ids rows.

End DataLayerInvariants.

(** * data_layer_client.py, [batch_delete_assets] *)
Module DataLayerClientDelete.
Import DataLayerClient.

(** What [batch_delete_assets] raises: an exception of the client as
    before, or the [KeyError] of [existing_df['UniqueId']] on a frame
    without columns. *)
Inductive DeleteExn :=
  | ClientExn (e : Exn)
  | KeyError (key : string).

Section client.
Context {St : Type} `{!Remote St}.

(** The check of lines 211-215: the exception it raises, if any. *)
Definition delete_check (existing_df : DataFrame) (asset_ids : list string)
  : option Exn :=
  if negb (empty existing_df) then
    let missing_ids := list_to_set asset_ids ∖ id_set existing_df in
    if bool_decide (missing_ids ≠ ∅)
    then Some (AssetsNotFound missing_ids)
    else None
  else None.

(** [existing_df['UniqueId'].isin(asset_ids)] *)
Definition isin_ids (existing_df : DataFrame) (asset_ids : list string)
  : list bool :=
  map (λ r, bool_decide (UniqueId r ∈ asset_ids)) existing_df.

(** [batch_delete_assets], lines 205-227. [read_assets] builds the frame
    with [pd.DataFrame(data["data"])]: for an empty list it has no
    column, and line 218 raises [KeyError]. *)
Definition batch_delete_assets (asset_type : string) (asset_ids : list string)
    (w : World St) : result DeleteExn (list string) * World St :=
  match read_assets asset_type w with
  | (Err e, w) => (Err (ClientExn e), w)
  | (Ok existing_df, w) =>
      match delete_check existing_df asset_ids with
      | Some e => (Err (ClientExn e), w)
      | None =>
          if empty existing_df then (Err (KeyError "UniqueId"), w)
          else
            let remaining_df :=
              select (map negb (isin_ids existing_df asset_ids)) existing_df in
            match write_assets asset_type remaining_df w with
            | (Err e, w) => (Err (ClientExn e), w)
            | (Ok _, w) => (Ok asset_ids, w)
            end
      end
  end.

End client.

End DataLayerClientDelete.

(** * The service in front of the data layer

    [DataAccessService.create_assets_batch] posts to
    [/assets/{asset_type_str}/batch] and [/assets/{asset_type_str}]:
    these are the routes of [create_assets_batch] and [create_asset] in
    src/data-layer/main.py. *)
Module Deployment.
Import DataLayer DataLayerRoutes.

(** The JSON body of an answer of the data layer. *)
Inductive Body (J : Type) :=
  | AssetBody (a : AssetOut J)
  | AssetsBody (l : list (AssetOut J))
  | DetailBody (e : HTTPException)
  | PathBody.
Arguments AssetBody {J} a.
Arguments AssetsBody {J} l.
Arguments DetailBody {J} e.
Arguments PathBody {J}.

(** The status code of an [HTTPException]. *)
Definition status_of (e : HTTPException) : Z :=
  match e with
  | HTTP500 _ => 500
  | HTTP422 _ => 422
  end.

(** The data layer as the backend of the service: a path whose
    [asset_type] is not a member of the enumeration is answered 422, a
    handler that returns is answered 200 with what it returned, one that
    raises [HTTPException] with its status code. The model [Asset] of
    schemas.py has the fields of the dictionaries the data layer
    answers, so building it from such a dictionary succeeds. *)
#[export] Instance data_layer_backend {J : Type} `{!JsonCodec J}
  : DataAccessService.Backend J (World J) (Body J) (AssetOut J) :=
  {| DataAccessService.serve := λ rq w,
       match rq with
       | DataAccessService.PostBatch asset_type_str assets =>
           match asset_type_of asset_type_str with
           | None => (DataAccessService.Response 422 PathBody, w)
           | Some t =>
               match post_assets_batch t (map Dict assets) w with
               | (Ok l, w) => (DataAccessService.Response 200 (AssetsBody l), w)
               | (Err e, w) =>
                   (DataAccessService.Response (status_of e) (DetailBody e), w)
               end
           end
       | DataAccessService.PostAsset asset_type_str asset =>
           match asset_type_of asset_type_str with
           | None => (DataAccessService.Response 422 PathBody, w)
           | Some t =>
               match post_asset t asset w with
               | (Ok a, w) => (DataAccessService.Response 200 (AssetBody a), w)
               | (Err e, w) =>
                   (DataAccessService.Response (status_of e) (DetailBody e), w)
               end
           end
       end;
     DataAccessService.parse_asset := λ b,
       match b with AssetBody a => Some a | _ => None end;
     DataAccessService.parse_assets := λ b,
       match b with AssetsBody l => Some l | _ => None end |}.

(** A key of the record holds a value that pydantic rejects. *)
Definition rejected {A} (f : Field A) : bool :=
  match f with Invalid _ _ => true | _ => false end.

Definition has_rejected {J} (asset : RawAsset J) : bool :=
  rejected (raw_unique_id asset) || rejected (raw_name asset) ||
  rejected (raw_description asset) || rejected (raw_metadata asset) ||
  rejected (raw_tags asset) || rejected (raw_is_stale asset).

(** The asset that the fallback creates for a record no key of which is
    rejected: the values of the record, and for an absent key the
    defaults of lines 120-125. *)
Definition sent_asset {J} `{!JsonCodec J} (asset : RawAsset J) : AssetCreate J :=
  {| ac_unique_id := field_value "" (raw_unique_id asset);
     ac_name := field_value "" (raw_name asset);
     ac_description := field_value (Some "") (raw_description asset);
     ac_metadata := field_value json_empty (raw_metadata asset);
     ac_tags := field_value json_empty (raw_tags asset);
     ac_is_stale := field_value false (raw_is_stale asset) |}.

(** What the data layer builds from the dictionary that the fallback
    sends for a record, if it validates. *)
Definition sent {J} `{!JsonCodec J} (asset : RawAsset J)
  : option (AssetCreate J) :=
  match validate 0 (DataAccessService.formatted_asset asset) with
  | Ok a => Some a
  | Err _ => None
  end.

End Deployment.

(** * src/api-gateway/main.py, the target of [forward_request] *)
Module Gateway.

(** [SERVICE_ROUTES], lines 33-38. *)
Definition SERVICE_ROUTES : list (string * string) :=
  [("analytics", "http://analytics-service:80");
   ("processing", "http://processing-service:80");
   ("storage", "http://storage-service:80");
   ("data-access", "http://data-access-service.microservices:8000")].

(** [SERVICE_ROUTES[service]], with [None] for [service not in
    SERVICE_ROUTES]. *)
Fixpoint route (service : string) (routes : list (string * string))
  : option string :=
  match routes with
  | [] => None
  | (name, url) :: rest =>
      if bool_decide (name = service) then Some url else route service rest
  end.

(** [path.lstrip('/')] *)
Fixpoint lstrip_slash (path : string) : string :=
  match path with
  | String c rest =>
      if Ascii.eqb c "/"%char then lstrip_slash rest else path
  | EmptyString => EmptyString
  end.

(** The list of line 108. *)
Definition short_paths : list string :=
  ["ec2"; "vpc"; "subnet"; "sg"; "s3"; "iam_role"; "user"; "iam_policy";
   "kms_key"; "cloudwatch_metric"].

(** [HTTPException(status_code=404, detail=f"Service {service} not found")] *)
Inductive HTTPException := HTTP404 (service : string).

(** [target_url] as [forward_request] computes it, lines 99-112. *)
Definition target_url (service path : string) : result HTTPException string :=
  match route service SERVICE_ROUTES with
  | None => Err (HTTP404 service)
  | Some base =>
      let path := lstrip_slash path in
      let path :=
        if bool_decide (service = "data-access") then
          if bool_decide (path ∈ short_paths) then "assets/" +:+ path
          else path
        else path in
      Ok (base +:+ "/" +:+ path)
  end.

(** The asset types whose value is not in the list of line 108. *)
Definition no_short_path (t : DataLayer.AssetType) : bool :=
  match t with
  | DataLayer.IGW | DataLayer.NI | DataLayer.LAMBDA => true
  | _ => false
  end.

(** [n] slashes. *)
Fixpoint slashes (n : nat) : string :=
  match n with
  | 0 => ""
  | S n => String "/" (slashes n)
  end.

End Gateway.

(** Further sample data: a bucket holding one [ec2] line, and a batch
    for it. *)
Module MoreSamples.
Import DataLayer Samples.

Definition stored_lines : list Row := [line "i-1" "web" "t0"].

Definition stored : World string :=
  {| bucket := {[ data_key EC2 := Parquet (Frame stored_lines) ]};
     puts := []; clock := stamp; ticks := 2 |}.

Definition batch : list (AssetCreate string) :=
  [asset "i-1" "renamed"; asset "i-2" "new"].

(** The same batch as the service receives it, the second record
    without a name, and a third record whose name is [null]. *)
Definition raw_batch : list (RawAsset string) :=
  [raw (Some "i-1") (Some "renamed"); raw (Some "i-2") None; null_name "i-3"].

(** A line for a record that is not stored, as a caller of
    [update_asset] may send it. *)
Definition added : Row :=
  {| asset_id := "AssetType.ec2_i-2"; unique_id := "i-2";
     name := "db"; description := None;
     metadata := "{}"; tags := "{}"; is_stale := false;
     created_at := "c9"; updated_at := "u9" |}.

End MoreSamples.

(** * Properties of the data layer *)
Module DataLayerFacts.
Import DataLayer DataLayerSpec Samples.

Section facts.
Context {J : Type} `{!JsonCodec J}.
Implicit Types (w : World J) (t : AssetType) (df : DataFrame).

Lemma metadata_key_ne_data_key (a : string) t : metadata_key a ≠ data_key t.
Proof. unfold metadata_key, data_key. simpl. discriminate. Qed.

Lemma read_table_same_bucket t w1 w2 :
  bucket w1 = bucket w2 → read_table t w1 = read_table t w2.
Proof. unfold read_table. by intros ->. Qed.

Lemma read_table_put_metadata t w (a : string) (o : Object J) :
  read_table t (put_object (metadata_key a) o w) = read_table t w.
Proof.
  unfold read_table, put_object; simpl.
  rewrite lookup_insert_ne; [done | apply metadata_key_ne_data_key].
Qed.

Lemma read_table_put_data t w df :
  read_table t (put_object (data_key t) (Parquet df) w) = Ok df.
Proof. unfold read_table, put_object; simpl. by rewrite lookup_insert_eq. Qed.

(** What [create_asset] does when the key of the type holds a table or
    nothing: two readings of the clock, the sidecar, the table with one
    more line. *)
Lemma create_asset_ok t (a : AssetCreate J) w df :
  read_table t w = Ok df →
  let created := clock w (ticks w) in
  let updated := clock w (S (ticks w)) in
  ∃ r w',
    create_asset t a w = (Ok r, w') ∧
    out_id r = make_asset_id t (ac_unique_id a) ∧
    out_unique_id r = ac_unique_id a ∧
    out_created_at r = created ∧ out_updated_at r = updated ∧
    read_table t w' = Ok (Frame (frame_rows df ++ [new_row t a created updated])) ∧
    puts w' = puts w ++ [metadata_key (make_asset_id t (ac_unique_id a)); data_key t] ∧
    clock w' = clock w ∧ ticks w' = S (S (ticks w)).
Proof.
  intros Hdf created updated. unfold create_asset. simpl.
  rewrite read_table_put_metadata.
  match goal with
  | |- context [read_table t ?x] =>
      rewrite (read_table_same_bucket t x w eq_refl), Hdf
  end.
  eexists _, _. split; [reflexivity|]. simpl.
  rewrite read_table_put_data. repeat split; try reflexivity.
  by rewrite <- app_assoc.
Qed.

Lemma create_all_ok t (assets : list (AssetCreate J)) : ∀ w df,
  read_table t w = Ok df →
  ∃ rs w' added,
    create_all t assets w = (rs, w') ∧
    Forall (λ r, is_ok r = true) rs ∧ length rs = length assets ∧
    read_table t w' =
      Ok (if assets is [] then df else Frame (frame_rows df ++ added)) ∧
    map unique_id added = map ac_unique_id assets.
Proof.
  induction assets as [|a rest IH]; intros w df Hdf.
  - exists [], w, []. by rewrite Hdf.
  - destruct (create_asset_ok t a w df Hdf)
      as (r & w1 & Hc & _ & _ & _ & _ & Hread & _).
    destruct (IH w1 _ Hread) as (rs & w2 & added & Hall & Hok & Hlen & Hread2 & Hids).
    exists (Ok r :: rs), w2, (new_row t a (clock w (ticks w)) (clock w (S (ticks w))) :: added).
    simpl. rewrite Hc, Hall. split_and!; [done | by constructor | by f_equal | | by f_equal].
    rewrite Hread2. destruct rest; simpl in *.
    + by destruct added.
    + by rewrite <- app_assoc.
Qed.

(** C1 (as amended). [create_asset] does not look for the [unique_id] in
    the table: whenever the key of the type holds a table or nothing,
    every create of a sequence succeeds and the table becomes the former
    lines followed by one line per created record, in order, with the
    record's [unique_id]. The stored [unique_id]s are therefore pairwise
    distinct exactly when the former ones together with the created ones
    are. *)
Theorem create_appends_unchecked t (assets : list (AssetCreate J)) w df :
  read_table t w = Ok df →
  ∃ rs w' added,
    create_all t assets w = (rs, w') ∧
    Forall (λ r, is_ok r = true) rs ∧ length rs = length assets ∧
    table_rows t w' = table_rows t w ++ added ∧
    map unique_id added = map ac_unique_id assets ∧
    (NoDup (map unique_id (table_rows t w')) ↔
     NoDup (map unique_id (table_rows t w) ++ map ac_unique_id assets)).
Proof.
  intros Hdf.
  destruct (create_all_ok t assets w df Hdf)
    as (rs & w' & added & Hall & Hok & Hlen & Hread & Hids).
  exists rs, w', added.
  assert (Hrows : table_rows t w' = table_rows t w ++ added).
  { unfold table_rows. rewrite Hread, Hdf. destruct assets; simpl; [|done].
    destruct added; [|done]. by rewrite app_nil_r. }
  split_and!; try done.
  by rewrite Hrows, map_app, Hids.
Qed.

(** ** The batch loop on a table that has columns *)

Lemma any_eq_mask (uid : string) (ids : list string) :
  any (eq_mask uid ids) = bool_decide (uid ∈ ids).
Proof.
  induction ids as [|u ids IH]; simpl.
  - done.
  - rewrite IH. destruct (decide (u = uid)) as [->|Hne].
    + rewrite bool_decide_eq_true_2 by done. simpl. symmetry.
      apply bool_decide_eq_true. left.
    + rewrite (bool_decide_eq_false_2 (u = uid)) by done. simpl.
      apply bool_decide_ext. rewrite elem_of_cons. intuition congruence.
Qed.

Lemma zip_with_eq_mask (f : Row → Row) (uid : string) (rows : list Row) :
  zip_with (λ (b : bool) r, if b then f r else r)
    (eq_mask uid (map unique_id rows)) rows
  = map (λ r, if bool_decide (unique_id r = uid) then f r else r) rows.
Proof. induction rows as [|r rows IH]; simpl; [done | by rewrite IH]. Qed.

Lemma first_created_at_eq_mask (uid : string) (rows : list Row) :
  first_created_at (eq_mask uid (map unique_id rows)) rows
  = match filter (λ r, unique_id r = uid) rows with
    | [] => Err IndexError
    | r0 :: _ => Ok (created_at r0)
    end.
Proof.
  unfold first_created_at.
  induction rows as [|r rows IH]; simpl; [done|].
  rewrite !filter_cons. simpl.
  destruct (decide (unique_id r = uid)) as [Heq|Hne].
  - rewrite bool_decide_eq_true_2 by done.
    by rewrite decide_True by done.
  - rewrite bool_decide_eq_false_2 by done.
    by rewrite decide_False by done.
Qed.

Lemma filter_nil_not_elem (uid : string) (rows : list Row) :
  filter (λ r, unique_id r = uid) rows = [] ↔ uid ∉ map unique_id rows.
Proof.
  induction rows as [|r rows IH]; simpl.
  - split; [intros _ ?%elem_of_nil; done | done].
  - rewrite filter_cons, not_elem_of_cons.
    destruct (decide (unique_id r = uid)) as [Heq|Hne].
    + split; [done | intros [? _]; congruence].
    + rewrite IH. intuition congruence.
Qed.

Lemma batch_step_frame t (a : AssetCreate J) w rows (nr : list Row) :
  let now := clock w (ticks w) in
  batch_step t (Frame rows, nr, w) a
  = (Ok (Frame (batch_rows t a now rows).1, nr ++ [(batch_rows t a now rows).2]),
     advance 1 w).
Proof.
  unfold batch_step, batch_rows. simpl.
  rewrite any_eq_mask, first_created_at_eq_mask.
  destruct (filter _ rows) as [|r0 frows] eqn:Hf.
  - apply filter_nil_not_elem in Hf.
    rewrite (bool_decide_eq_false_2 _ Hf), andb_false_r. reflexivity.
  - assert (Hin : ac_unique_id a ∈ map unique_id rows).
    { destruct (decide (ac_unique_id a ∈ map unique_id rows)) as [|Hn]; [done|].
      apply filter_nil_not_elem in Hn. congruence. }
    rewrite (bool_decide_eq_true_2 _ Hin), andb_true_r.
    rewrite bool_decide_eq_true_2.
    + simpl. rewrite zip_with_eq_mask. reflexivity.
    + unfold len. simpl. destruct rows; simpl; [|lia].
      by apply elem_of_nil in Hin.
Qed.

Lemma batch_loop_frame t (assets : list (AssetCreate J)) : ∀ w rows (nr : list Row),
  batch_loop t (Frame rows) nr w assets
  = (Ok (Frame (batch_fold t assets (clock w) (ticks w) rows).1,
         nr ++ (batch_fold t assets (clock w) (ticks w) rows).2),
     advance (length assets) w).
Proof.
  induction assets as [|a rest IH]; intros w rows nr; cbn [batch_loop batch_fold].
  - simpl. rewrite app_nil_r. by destruct w.
  - rewrite batch_step_frame. simpl.
    destruct (batch_rows t a (clock w (ticks w)) rows) as [rows1 x] eqn:Hb.
    simpl. rewrite IH. simpl.
    destruct (batch_fold t rest (clock w) (S (ticks w)) rows1) as [rows2 xs].
    simpl. rewrite <- app_assoc. simpl. f_equal.
    unfold advance. simpl. f_equal. lia.
Qed.

Lemma revalidate_ok (assets : list (AssetCreate J)) : ∀ i,
  revalidate i assets = Ok ().
Proof. induction assets as [|a rest IH]; intros i; simpl; [done | apply IH]. Qed.

(** The lines reported by a batch are lines of its records, in order. *)
Lemma batch_fold_reports t (assets : list (AssetCreate J)) clk : ∀ n rows,
  Forall2 (λ a x, ∃ created, x = new_row t a created (updated_at x))
    assets (batch_fold t assets clk n rows).2.
Proof.
  induction assets as [|a rest IH]; intros n rows; simpl; [constructor|].
  destruct (batch_rows t a (clk n) rows) as [rows1 x] eqn:Hb.
  specialize (IH (S n) rows1).
  destruct (batch_fold t rest clk (S n) rows1) as [rows2 xs]. simpl in *.
  constructor; [|done].
  unfold batch_rows in Hb.
  destruct (filter _ rows) as [|r0 ?]; inversion Hb; eauto.
Qed.

Lemma responded_new_row t (a : AssetCreate J) (c u : string) :
  responded t (new_row t a c u) = Ok (answer t a c u).
Proof. unfold responded, new_row. simpl. by rewrite !json_loads_dumps. Qed.

Lemma response_data_reports t (assets : list (AssetCreate J)) (xs : list Row) :
  Forall2 (λ a x, ∃ created, x = new_row t a created (updated_at x)) assets xs →
  response_data t xs
  = Ok (zip_with (λ a x, answer t a (created_at x) (updated_at x)) assets xs).
Proof.
  induction 1 as [|a x assets xs [c Hx] _ IH]; simpl; [done|].
  rewrite IH. rewrite Hx at 1. by rewrite responded_new_row, Hx.
Qed.

(** [create_assets_batch] on a table that has columns: the records are
    upserted in order, each at its own reading of the clock, the table
    is written once, and every record is answered. *)
Lemma create_assets_batch_frame t (assets : list (AssetCreate J)) w rows :
  read_table t w = Ok (Frame rows) →
  let '(rows', xs) := batch_fold t assets (clock w) (ticks w) rows in
  create_assets_batch t assets w
  = (Ok (zip_with (λ a x, answer t a (created_at x) (updated_at x)) assets xs),
     put_object (data_key t) (Parquet (Frame rows')) (advance (length assets) w)).
Proof.
  intros Hdf. unfold create_assets_batch.
  rewrite revalidate_ok, Hdf, batch_loop_frame.
  pose proof (batch_fold_reports t assets (clock w) (ticks w) rows) as Hrep.
  destruct (batch_fold t assets (clock w) (ticks w) rows) as [rows' xs].
  simpl in *. by rewrite (response_data_reports t assets xs Hrep).
Qed.

Lemma batch_rows_ids_derived t (a : AssetCreate J) now rows :
  ids_derived t rows → ids_derived t (batch_rows t a now rows).1.
Proof.
  unfold ids_derived, batch_rows. intros H.
  destruct (filter _ rows) as [|r0 ?]; simpl.
  - apply Forall_app. split; [done|]. by constructor.
  - apply Forall_fmap. eapply Forall_impl; [exact H|].
    intros r Hr. simpl. by case_bool_decide.
Qed.

Lemma batch_fold_ids_derived t (assets : list (AssetCreate J)) clk : ∀ n rows,
  ids_derived t rows → ids_derived t (batch_fold t assets clk n rows).1.
Proof.
  induction assets as [|a rest IH]; intros n rows H; simpl; [done|].
  pose proof (batch_rows_ids_derived t a (clk n) rows H) as H1.
  destruct (batch_rows t a (clk n) rows) as [rows1 x].
  specialize (IH (S n) rows1 H1).
  by destruct (batch_fold t rest clk (S n) rows1).
Qed.

(** [create_assets_batch] when the key is absent (or holds a frame
    without columns): the first record already raises [KeyError] at the
    mask of line 373, after its reading of the clock. *)
Lemma create_assets_batch_no_columns t (a : AssetCreate J) rest w :
  read_table t w = Ok NoColumns →
  create_assets_batch t (a :: rest) w
  = (Err (HTTP500 (KeyError "unique_id")), advance 1 w).
Proof.
  intros Hdf. unfold create_assets_batch. by rewrite revalidate_ok, Hdf.
Qed.

Lemma create_assets_batch_nil t w df :
  read_table t w = Ok df →
  create_assets_batch t [] w = (Ok [], put_object (data_key t) (Parquet df) w).
Proof.
  intros Hdf. unfold create_assets_batch. simpl. rewrite Hdf. by destruct w.
Qed.

(** C2 (as amended). The identifier is
    ["AssetType.{asset_type}_{unique_id}"], a function of the type and
    the [unique_id]: it is the [id] answered by [create_asset] and, for
    every record, by [create_assets_batch], and the [asset_id] of every
    line they append (a batch leaves the [asset_id] of a line it updates
    as it was). *)
Theorem asset_id_derived t w df :
  read_table t w = Ok df →
  (∀ a : AssetCreate J, ∃ r w' row,
      create_asset t a w = (Ok r, w') ∧
      out_id r = make_asset_id t (ac_unique_id a) ∧
      table_rows t w' = frame_rows df ++ [row] ∧
      unique_id row = ac_unique_id a ∧
      asset_id row = make_asset_id t (ac_unique_id a)) ∧
  (∀ assets : list (AssetCreate J),
      match create_assets_batch t assets w with
      | (Ok resp, w') =>
          Forall2 (λ a r, out_id r = make_asset_id t (ac_unique_id a))
            assets resp ∧
          (ids_derived t (frame_rows df) → ids_derived t (table_rows t w'))
      | (Err _, _) => df = NoColumns ∧ assets ≠ []
      end).
Proof.
  intros Hdf. split.
  - intros a.
    destruct (create_asset_ok t a w df Hdf)
      as (r & w' & Hc & Hid & _ & _ & _ & Hread & _).
    exists r, w', (new_row t a (clock w (ticks w)) (clock w (S (ticks w)))).
    split_and!; try done. unfold table_rows. by rewrite Hread.
  - intros assets. destruct df as [|rows].
    + destruct assets as [|a rest].
      * rewrite (create_assets_batch_nil t w _ Hdf). split; [constructor|].
        intros _. unfold table_rows. rewrite read_table_put_data. constructor.
      * by rewrite (create_assets_batch_no_columns t a rest w Hdf).
    + pose proof (create_assets_batch_frame t assets w rows Hdf) as Hb.
      pose proof (batch_fold_reports t assets (clock w) (ticks w) rows) as Hrep.
      pose proof (batch_fold_ids_derived t assets (clock w) (ticks w) rows) as Hinv.
      destruct (batch_fold t assets (clock w) (ticks w) rows) as [rows' xs].
      simpl in *. rewrite Hb. split.
      * clear Hb Hinv. induction Hrep; simpl; constructor; done.
      * unfold table_rows. by rewrite read_table_put_data.
Qed.

(** C3 (the code at the failing input). On a type whose key is absent
    from the bucket, [create_assets_batch] with at least one record
    answers 500: [df['unique_id']] raises [KeyError] on the frame
    without columns before the guard [len(df) > 0] is looked at.
    Nothing is appended, nothing is written and no record is answered. *)
Theorem batch_upsert_absent_table_fails t (a : AssetCreate J) rest w :
  bucket w !! data_key t = None →
  let out := create_assets_batch t (a :: rest) w in
  out.1 = Err (HTTP500 (KeyError "unique_id")) ∧
  bucket out.2 = bucket w ∧ puts out.2 = puts w.
Proof.
  intros Hnone.
  assert (Hdf : read_table t w = Ok NoColumns).
  { unfold read_table. by rewrite Hnone. }
  simpl. by rewrite (create_assets_batch_no_columns t a rest w Hdf).
Qed.

(** ** [update_asset] *)

Lemma selected_eq_mask_NoDup (uid : string) (ids : list string) :
  NoDup ids → uid ∈ ids → selected (eq_mask uid ids) = 1.
Proof.
  unfold selected. induction ids as [|u ids IH]; intros Hnd Hin.
  - by apply elem_of_nil in Hin.
  - apply NoDup_cons in Hnd as [Hu Hnd]. simpl. rewrite filter_cons.
    destruct (decide (u = uid)) as [->|Hne].
    + rewrite bool_decide_eq_true_2 by done. rewrite decide_True by done.
      simpl. f_equal.
      assert (Hnone : any (eq_mask uid ids) = false).
      { rewrite any_eq_mask. by apply bool_decide_eq_false_2. }
      clear -Hnone. induction ids as [|v ids IH]; [done|].
      simpl in *. apply orb_false_iff in Hnone as [-> Hnone].
      rewrite filter_cons. rewrite decide_False by done. by apply IH.
    + rewrite bool_decide_eq_false_2 by done. rewrite decide_False by done.
      apply IH; [done|]. apply elem_of_cons in Hin as [->|]; done.
Qed.

(** The loop of [update_asset] on a table that has columns, for rows
    that bring only new [unique_id]s: every row is appended. *)
Lemma update_loop_new (input : list Row) : ∀ rows : list Row,
  NoDup (map unique_id input) →
  (∀ u, u ∈ map unique_id input → u ∉ map unique_id rows) →
  update_loop (Frame rows) input = Ok (Frame (rows ++ input)).
Proof.
  induction input as [|row rest IH]; intros rows Hnd Hnew; cbn [update_loop].
  - by rewrite app_nil_r.
  - simpl in Hnd. apply NoDup_cons in Hnd as [Hrow Hnd].
    unfold update_step. simpl. rewrite any_eq_mask.
    rewrite bool_decide_eq_false_2 by (apply Hnew; left).
    unfold concat_row. simpl. rewrite IH; [by rewrite <- app_assoc | done |].
    intros u Hu. rewrite map_app, elem_of_app. simpl.
    rewrite list_elem_of_singleton. intros [Hin| ->]; [|done].
    apply (Hnew u); [by right | done].
Qed.

(** The same loop for any other rows: the first row whose [unique_id]
    is in the frame (stored, or appended by an earlier turn) reaches the
    assignment of line 238, which raises. *)
Lemma update_loop_raises (input : list Row) : ∀ rows : list Row,
  ¬ (NoDup (map unique_id input) ∧
     ∀ u, u ∈ map unique_id input → u ∉ map unique_id rows) →
  ∃ e, update_loop (Frame rows) input = Err e ∧
       (e = ValueError ∨ e = TypeError) ∧
       (NoDup (map unique_id rows) → e = ValueError).
Proof.
  induction input as [|row rest IH]; intros rows Hnot; cbn [update_loop].
  - exfalso. apply Hnot. split; [constructor|]. by intros u ?%elem_of_nil.
  - unfold update_step. simpl. rewrite any_eq_mask.
    destruct (decide (unique_id row ∈ map unique_id rows)) as [Hin|Hout].
    + rewrite bool_decide_eq_true_2 by done.
      eexists. split; [reflexivity|]. split.
      * unfold loc_set. case_bool_decide; [by right | by left].
      * intros Hnd. unfold loc_set.
        rewrite (selected_eq_mask_NoDup _ _ Hnd Hin).
        by rewrite bool_decide_eq_false_2 by lia.
    + rewrite bool_decide_eq_false_2 by done. unfold concat_row. simpl.
      destruct (IH (rows ++ [row])) as (e & He & Hcase & Hval).
      { intros [Hnd Hnew]. apply Hnot. split.
        - simpl. apply NoDup_cons. split; [|done].
          intros Hrow. apply (Hnew _ Hrow). rewrite map_app, elem_of_app.
          right. simpl. left.
        - intros u [->|Hu]%elem_of_cons; [done|].
          intros Hin. apply (Hnew u Hu). rewrite map_app, elem_of_app.
          by left. }
      exists e. split; [exact He|]. split; [exact Hcase|].
      intros Hnd. apply Hval. rewrite map_app. simpl.
      apply NoDup_app. split_and!; [done | | apply NoDup_singleton].
      intros u Hu ->%list_elem_of_singleton. done.
Qed.

(** C4 (the code at the failing input). On a table that has columns,
    [update_asset] with an input row whose [unique_id] is stored
    replaces nothing: the assignment [df.loc[mask] = row] of line 238
    raises inside pandas (the Series [row] is aligned on the labels of
    the selected lines, not on the columns), the handler answers 500,
    and the world is as before: no line is replaced, no row of the call
    is appended, the table is not rewritten and no clock is read. When
    the stored [unique_id]s are pairwise distinct the exception is the
    [ValueError]. *)
Theorem update_stored_id_fails t (asset : AssetUpdate) w (rows : list Row)
    (row : Row) :
  read_table t w = Ok (Frame rows) →
  row ∈ data asset →
  unique_id row ∈ map unique_id rows →
  ∃ e, update_asset t asset w = (Err (HTTP500 e), w) ∧
       (e = ValueError ∨ e = TypeError) ∧
       (NoDup (map unique_id rows) → e = ValueError).
Proof.
  intros Hdf Hrow Hin.
  destruct (update_loop_raises (data asset) rows) as (e & He & Hcase & Hval).
  - intros [_ Hnew]. apply (Hnew (unique_id row)); [|done].
    by apply (list_elem_of_fmap_2 unique_id).
  - exists e. split; [|done]. unfold update_asset. by rewrite Hdf, He.
Qed.

(** ** Validation of a batch *)

Lemma validate_err_nonempty i (raw : RawAsset J) errs :
  validate i raw = Err errs → errs ≠ [].
Proof.
  unfold validate.
  destruct (field_errors i "unique_id" true (raw_unique_id raw) ++ _);
    intros H; inversion H; subst; discriminate.
Qed.

Lemma validate_item_err_nonempty i (item : Item J) errs :
  validate_item i item = Err errs → errs ≠ [].
Proof.
  destruct item as [raw|msg ty]; simpl.
  - apply validate_err_nonempty.
  - by intros [= <-].
Qed.

Lemma parse_batch_err_exists (body : list (Item J)) : ∀ i k item e,
  body !! k = Some item → validate_item (i + k) item = Err e →
  ∃ errs, parse_batch i body = Err errs.
Proof.
  induction body as [|item0 rest IH]; intros i k item e Hk Hv; [done|].
  simpl. destruct k as [|k]; simpl in Hk.
  - inversion Hk; subst. rewrite Nat.add_0_r in Hv. rewrite Hv.
    destruct (parse_batch (S i) rest); eauto.
  - destruct (IH (S i) k item e Hk) as [errs Herrs].
    { by replace (S i + k) with (i + S k) by lia. }
    rewrite Herrs. destruct (validate_item i item0); eauto.
Qed.

Lemma parse_batch_err_complete (body : list (Item J)) : ∀ i errs,
  parse_batch i body = Err errs →
  ∀ k item e, body !! k = Some item → validate_item (i + k) item = Err e →
              e ⊆ errs.
Proof.
  induction body as [|item0 rest IH]; intros i errs Hp k item e Hk Hv;
    [done|].
  simpl in Hp.
  destruct (validate_item i item0) as [a0|e0] eqn:Hv0,
           (parse_batch (S i) rest) as [l|errs'] eqn:Hrest;
    inversion Hp; subst; clear Hp.
  - destruct k as [|k]; simpl in Hk.
    + inversion Hk; subst. rewrite Nat.add_0_r in Hv. congruence.
    + eapply (IH (S i)); [done | exact Hk |].
      by replace (S i + k) with (i + S k) by lia.
  - destruct k as [|k]; simpl in Hk.
    + inversion Hk; subst. rewrite Nat.add_0_r in Hv.
      rewrite Hv in Hv0. by inversion Hv0.
    + destruct (parse_batch_err_exists rest (S i) k item e Hk) as [? ?];
        [by replace (S i + k) with (i + S k) by lia | congruence].
  - destruct k as [|k]; simpl in Hk.
    + inversion Hk; subst. rewrite Nat.add_0_r in Hv.
      rewrite Hv in Hv0. inversion Hv0; subst.
      intros x Hx. apply elem_of_app. by left.
    + intros x Hx. apply elem_of_app. right.
      eapply (IH (S i)); [done | exact Hk | | exact Hx].
      by replace (S i + k) with (i + S k) by lia.
Qed.

(** Every error of a rejected body is an error of one of its
    elements. *)
Lemma parse_batch_err_sound (body : list (Item J)) : ∀ i errs,
  parse_batch i body = Err errs →
  ∀ x, x ∈ errs →
    ∃ k item e, body !! k = Some item ∧
                validate_item (i + k) item = Err e ∧ x ∈ e.
Proof.
  induction body as [|item0 rest IH]; intros i errs Hp x Hx; [done|].
  simpl in Hp.
  destruct (validate_item i item0) as [a0|e0] eqn:Hv0,
           (parse_batch (S i) rest) as [l|errs'] eqn:Hrest;
    inversion Hp; subst; clear Hp.
  - destruct (IH (S i) errs Hrest x Hx) as (k & item & e & Hk & Hv & Hin).
    exists (S k), item, e. split_and!; [done | | done].
    by replace (i + S k) with (S i + k) by lia.
  - exists 0, item0, errs. rewrite Nat.add_0_r. by split_and!.
  - apply elem_of_app in Hx as [Hx|Hx].
    + exists 0, item0, e0. rewrite Nat.add_0_r. by split_and!.
    + destruct (IH (S i) errs' Hrest x Hx) as (k & item & e & Hk & Hv & Hin).
      exists (S k), item, e. split_and!; [done | | done].
      by replace (i + S k) with (S i + k) by lia.
Qed.

(** C5 (as amended). A batch is all or nothing with respect to
    validation: when an element of the body does not validate (a
    required key is absent, the value of a key is not of the type of its
    field, or the element is no object), the call is answered 422 with
    the validation errors of every such element and no other error, no
    record of the batch is processed, and the world is as before:
    nothing is read from the clock and nothing is written. *)
Theorem batch_rejected_as_a_whole t (body : list (Item J)) w
    (k : nat) (item : Item J) :
  body !! k = Some item → is_ok (validate_item k item) = false →
  ∃ errs,
    post_assets_batch t body w = (Err (HTTP422 errs), w) ∧
    errs ≠ [] ∧
    (∀ k' item' e, body !! k' = Some item' →
                   validate_item k' item' = Err e → e ⊆ errs) ∧
    (∀ x, x ∈ errs →
       ∃ k' item' e, body !! k' = Some item' ∧
                     validate_item k' item' = Err e ∧ x ∈ e).
Proof.
  intros Hk Hbad.
  destruct (validate_item k item) as [|e] eqn:Hv; [done|].
  destruct (parse_batch_err_exists body 0 k item e Hk Hv) as [errs Herrs].
  exists errs. unfold post_assets_batch. rewrite Herrs.
  split_and!; [done | | |].
  - pose proof (parse_batch_err_complete body 0 errs Herrs k item e Hk Hv) as Hsub.
    pose proof (validate_item_err_nonempty k item e Hv) as Hne.
    intros ->. destruct e as [|x e]; [done|].
    specialize (Hsub x). rewrite elem_of_nil in Hsub. apply Hsub. left.
  - intros k' item' e' Hk' Hv'.
    exact (parse_batch_err_complete body 0 errs Herrs k' item' e' Hk' Hv').
  - intros x Hx.
    exact (parse_batch_err_sound body 0 errs Herrs x Hx).
Qed.

(** ** Pagination *)

Lemma iloc_between {A} (l : list A) (a b : Z) :
  (0 ≤ a ≤ b)%Z → (b ≤ Z.of_nat (length l))%Z →
  iloc l a b = between (Z.to_nat a) (Z.to_nat b) l.
Proof.
  intros Hab Hb. unfold iloc, between, slice_bound.
  destruct (Z.ltb_spec a 0); [lia|]. destruct (Z.ltb_spec b 0); [lia|].
  rewrite !Z.min_l by lia. f_equal; lia.
Qed.

(** One page, as the handler computes it. *)
Lemma list_assets_by_type_page t w df (page limit : Z) :
  bucket w !! data_key t = Some (Parquet df) →
  (1 ≤ page)%Z → (1 ≤ limit)%Z →
  let rows := frame_rows df in
  let N := Z.of_nat (length rows) in
  let skip := ((page - 1) * limit)%Z in
  list_assets_by_type t page limit w
  = Ok (if (skip >=? N)%Z then []
        else map (listed t)
               (between (Z.to_nat skip) (Z.to_nat (Z.min (skip + limit) N)) rows)).
Proof.
  intros Hdf Hpage Hlimit rows N skip.
  unfold list_assets_by_type. rewrite Hdf. unfold len. fold rows N skip.
  destruct (Z.geb_spec skip N) as [Hge|Hlt]; [done|].
  rewrite iloc_between; [done | | ]; fold N; subst skip; nia.
Qed.

(** The same page, counted from zero, as a window of [l] lines. *)
Lemma page_of_window t w df (limit : Z) (p : nat) :
  bucket w !! data_key t = Some (Parquet df) → (1 ≤ limit)%Z →
  page_of t limit w (Z.of_nat p + 1)
  = map (listed t)
      (take (Z.to_nat limit) (drop (p * Z.to_nat limit) (frame_rows df))).
Proof.
  intros Hdf Hlimit. unfold page_of.
  rewrite (list_assets_by_type_page t w df _ limit Hdf) by lia.
  set (rows := frame_rows df). set (l := Z.to_nat limit).
  replace ((Z.of_nat p + 1 - 1) * limit)%Z with (Z.of_nat (p * l)) by lia.
  destruct (Z.geb_spec (Z.of_nat (p * l)) (Z.of_nat (length rows))) as [Hge|Hlt].
  - rewrite drop_ge by lia. by destruct l.
  - unfold between. rewrite Nat2Z.id. f_equal.
    destruct (decide (p * l + l ≤ length rows)%nat) as [Hle|Hgt].
    + f_equal. lia.
    + rewrite !take_ge; [done | | ]; rewrite length_drop; lia.
Qed.

Lemma concat_windows {A B} (f : A → B) (l : nat) (rows : list A) (k : nat) :
  concat (map (λ p, map f (take l (drop (p * l) rows))) (seq 0 k))
  = map f (take (k * l) rows).
Proof.
  induction k as [|k IH]; [done|].
  rewrite seq_S, map_app, concat_app, IH. simpl. rewrite app_nil_r.
  rewrite <- map_app, take_take_drop. f_equal. f_equal. lia.
Qed.

(** C6. For a table of [N] lines and a limit [1 <= L <= 1000], the pages
    [1 .. ceil(N/L)] put one after the other are all the lines, once
    each and in the order of the table; page [ceil(N/L) + 1] is empty;
    and for every page, with [skip = (page - 1) * L], the page is empty
    (no error) when [skip >= N] and holds the lines from [skip]
    (included) to [min (skip + L) N] (excluded) otherwise. *)
Theorem pagination_complete t w df (L : Z) :
  bucket w !! data_key t = Some (Parquet df) →
  (1 ≤ L ≤ 1000)%Z →
  let rows := frame_rows df in
  let N := Z.of_nat (length rows) in
  let last := ((N + L - 1) / L)%Z in
  concat (map (page_of t L w) (seqZ 1 last)) = map (listed t) rows ∧
  list_assets_by_type t (last + 1) L w = Ok [] ∧
  ∀ page, (1 ≤ page)%Z →
    let skip := ((page - 1) * L)%Z in
    list_assets_by_type t page L w
    = Ok (if (skip >=? N)%Z then []
          else map (listed t)
                 (between (Z.to_nat skip) (Z.to_nat (Z.min (skip + L) N)) rows)).
Proof.
  intros Hdf HL rows N last.
  assert (Hlast0 : (0 ≤ last)%Z) by (apply Z.div_pos; lia).
  assert (Hcover : (N ≤ last * L)%Z).
  { pose proof (Z.div_mod (N + L - 1) L ltac:(lia)) as Hdm.
    pose proof (Z.mod_pos_bound (N + L - 1) L ltac:(lia)) as Hm.
    fold last in Hdm. lia. }
  split_and!.
  - unfold seqZ. rewrite <- list_fmap_compose.
    change (concat (map (page_of t L w ∘ (λ i : nat, (Z.of_nat i + 1)%Z))
                      (seq 0 (Z.to_nat last))) = map (listed t) rows).
    rewrite (map_ext _ (λ p, map (listed t)
                           (take (Z.to_nat L) (drop (p * Z.to_nat L) rows)))).
    + rewrite concat_windows, take_ge; [done|]. fold rows. nia.
    + intros p. simpl. apply (page_of_window t w df L p Hdf). lia.
  - rewrite (list_assets_by_type_page t w df _ L Hdf) by lia.
    fold rows N. destruct (Z.geb_spec ((last + 1 - 1) * L) N); [done | lia].
  - intros page Hpage. apply (list_assets_by_type_page t w df page L Hdf); lia.
Qed.

End facts.

(** A table or nothing under a fresh bucket's key: the hypothesis of
    [create_appends_unchecked] holds there, for two creates of the same
    [unique_id]. *)
Lemma create_appends_unchecked_witness :
  read_table EC2 fresh = Ok NoColumns ∧
  ∃ rs w' added,
    create_all EC2 [asset "i-1" "web"; asset "i-1" "db"] fresh = (rs, w') ∧
    Forall (λ r, is_ok r = true) rs ∧ length rs = 2 ∧
    table_rows EC2 w' = table_rows EC2 fresh ++ added ∧
    map unique_id added = ["i-1"; "i-1"] ∧
    (NoDup (map unique_id (table_rows EC2 w')) ↔
     NoDup (map unique_id (table_rows EC2 fresh) ++ ["i-1"; "i-1"])).
Proof.
  split; [reflexivity|].
  exact (create_appends_unchecked EC2 [asset "i-1" "web"; asset "i-1" "db"]
           fresh NoColumns eq_refl).
Defined.

(** C1 fails as stated: a second create with the [unique_id] of a stored
    record is answered with the record (no error), and the table then
    holds two lines with that [unique_id]. *)
Lemma create_existing_unique_id_accepted :
  let out := create_asset EC2 (asset "i-1" "db") one_ec2 in
  map unique_id (table_rows EC2 one_ec2) = ["i-1"] ∧
  is_ok out.1 = true ∧
  map unique_id (table_rows EC2 out.2) = ["i-1"; "i-1"] ∧
  ¬ NoDup (map unique_id (table_rows EC2 out.2)).
Proof.
  vm_compute. split_and!; try reflexivity.
  intros H. apply NoDup_cons_1_1 in H. apply H. left.
Qed.

(** [asset_id_derived] on the table holding [ec2] record ["i-1"]. *)
Lemma asset_id_derived_witness :
  read_table EC2 one_ec2 = Ok (Frame (table_rows EC2 one_ec2)) ∧
  (∀ a : AssetCreate string, ∃ r w' row,
      create_asset EC2 a one_ec2 = (Ok r, w') ∧
      out_id r = make_asset_id EC2 (ac_unique_id a) ∧
      table_rows EC2 w' = table_rows EC2 one_ec2 ++ [row] ∧
      unique_id row = ac_unique_id a ∧
      asset_id row = make_asset_id EC2 (ac_unique_id a)).
Proof.
  split; [reflexivity|].
  exact (proj1 (asset_id_derived EC2 one_ec2 _ eq_refl)).
Defined.

(** [batch_upsert_absent_table_fails] on the empty bucket. *)
Lemma batch_upsert_absent_table_fails_witness :
  bucket fresh !! data_key EC2 = None ∧
  let out := create_assets_batch EC2 [asset "i-1" "web"] fresh in
  out.1 = Err (HTTP500 (KeyError "unique_id")) ∧
  bucket out.2 = bucket fresh ∧ puts out.2 = puts fresh.
Proof.
  split; [reflexivity|].
  exact (batch_upsert_absent_table_fails EC2 (asset "i-1" "web") [] fresh eq_refl).
Defined.

(** [update_stored_id_fails] on the table holding [ec2] record ["i-1"],
    for an update of that record. *)
Lemma update_stored_id_fails_witness :
  read_table EC2 one_ec2 = Ok (Frame (table_rows EC2 one_ec2)) ∧
  renamed ∈ data {| data := [renamed]; schema := None |} ∧
  unique_id renamed ∈ map unique_id (table_rows EC2 one_ec2) ∧
  update_asset EC2 {| data := [renamed]; schema := None |} one_ec2
  = (Err (HTTP500 ValueError), one_ec2).
Proof.
  assert (Hrow : renamed ∈ data {| data := [renamed]; schema := None |})
    by (simpl; left).
  assert (Hin : unique_id renamed ∈ map unique_id (table_rows EC2 one_ec2))
    by (vm_compute; left).
  assert (Hnd : NoDup (map unique_id (table_rows EC2 one_ec2)))
    by (vm_compute; apply NoDup_singleton).
  split; [reflexivity|]. split; [exact Hrow|]. split; [exact Hin|].
  destruct (update_stored_id_fails EC2 {| data := [renamed]; schema := None |}
              one_ec2 (table_rows EC2 one_ec2) renamed eq_refl Hrow Hin)
    as (e & Hcall & _ & Hval).
  rewrite Hcall. by rewrite (Hval Hnd).
Defined.

(** The run at the failing input of C4: the line stored for ["i-1"] was
    created at ["t0"] under the name ["web"]; an update with a row for
    ["i-1"] is answered 500 and the line is as it was. *)
Example update_of_stored_record_refused :
  let out := update_asset EC2 {| data := [renamed]; schema := None |} one_ec2 in
  out.1 = Err (HTTP500 ValueError) ∧
  map (λ r, (unique_id r, name r, created_at r)) (table_rows EC2 out.2)
    = [("i-1", "web", "t0")] ∧
  puts out.2 = puts one_ec2 ∧ ticks out.2 = ticks one_ec2.
Proof. vm_compute. by split_and!. Qed.

(** [batch_rejected_as_a_whole] on a body whose second record has a
    value for [is_stale] that is no boolean. *)
Lemma batch_rejected_as_a_whole_witness :
  let body := [Dict (raw (Some "i-2") (Some "ok")); Dict (ill_typed "i-3" "db")] in
  body !! 1 = Some (Dict (ill_typed "i-3" "db")) ∧
  is_ok (validate_item 1 (Dict (ill_typed "i-3" "db"))) = false ∧
  ∃ errs,
    post_assets_batch EC2 body one_ec2 = (Err (HTTP422 errs), one_ec2) ∧
    errs ≠ [] ∧
    ∀ k' item' e,
      body !! k' = Some item' → validate_item k' item' = Err e → e ⊆ errs.
Proof.
  intros body. split; [reflexivity|]. split; [reflexivity|].
  destruct (batch_rejected_as_a_whole EC2 body one_ec2 1
              (Dict (ill_typed "i-3" "db")) eq_refl eq_refl)
    as (errs & Hcall & Hne & Hall & _).
  exists errs. by split_and!.
Defined.

(** C5 fails as stated: a body with a valid record and a record without
    [name] is answered 422 as a whole; the valid record is not stored
    (the table and the log of writes are as before), although the same
    record sent alone is stored. *)
Lemma batch_bad_row_aborts_batch :
  let good := Dict (raw (Some "i-2") (Some "ok")) in
  let bad := Dict (raw (Some "i-3") None) in
  let out := post_assets_batch EC2 [good; bad] one_ec2 in
  out.1 = Err (HTTP422 [missing 1 "name"]) ∧
  table_rows EC2 out.2 = table_rows EC2 one_ec2 ∧
  puts out.2 = puts one_ec2 ∧
  is_ok (post_assets_batch EC2 [good] one_ec2).1 = true ∧
  map unique_id (table_rows EC2 (post_assets_batch EC2 [good] one_ec2).2)
    = ["i-1"; "i-2"].
Proof. vm_compute. by split_and!. Qed.

(** The same for a record whose [is_stale] is no boolean, for a record
    whose [name] is [null], and for an element that is no object: the
    body is answered 422 with the error of that element, and the valid
    record is not stored. *)
Example batch_ill_typed_row_aborts_batch :
  let good := Dict (raw (Some "i-2") (Some "ok")) in
  let out1 := post_assets_batch EC2 [good; Dict (ill_typed "i-3" "db")] one_ec2 in
  let out2 := post_assets_batch EC2 [good; Dict (null_name "i-3")] one_ec2 in
  let out3 := post_assets_batch EC2 [good; NotDict "no object" "model_type"] one_ec2 in
  out1.1 = Err (HTTP422
             [{| err_loc := (1, ["is_stale"]);
                 err_msg := fe_msg not_a_boolean;
                 err_type := "bool_parsing" |}]) ∧
  out2.1 = Err (HTTP422
             [{| err_loc := (1, ["name"]);
                 err_msg := "Input should be a valid string";
                 err_type := "string_type" |}]) ∧
  out3.1 = Err (HTTP422
             [{| err_loc := (1, []); err_msg := "no object";
                 err_type := "model_type" |}]) ∧
  out1.2 = one_ec2 ∧ out2.2 = one_ec2 ∧ out3.2 = one_ec2.
Proof. vm_compute. by split_and!. Qed.

(** C2 fails as stated: the identifier of [ec2] record ["i-1"] is
    ["AssetType.ec2_i-1"], not ["ec2_i-1"]. *)
Lemma create_asset_id_not_bare :
  ∃ r w',
    create_asset EC2 (asset "i-1" "web") fresh = (Ok r, w') ∧
    spec_asset_id EC2 "i-1" = "ec2_i-1" ∧
    out_id r = "AssetType.ec2_i-1" ∧
    out_id r ≠ spec_asset_id EC2 "i-1" ∧
    map asset_id (table_rows EC2 w') = ["AssetType.ec2_i-1"].
Proof.
  eexists _, _. split; [reflexivity|].
  vm_compute. split_and!; try reflexivity. discriminate.
Qed.

(** [pagination_complete] on the table of three records, two to a page. *)
Lemma pagination_complete_witness :
  bucket three_ec2 !! data_key EC2 = Some (Parquet (Frame three_lines)) ∧
  (1 ≤ 2 ≤ 1000)%Z ∧
  concat (map (page_of EC2 2 three_ec2) (seqZ 1 2))
    = map (listed EC2) three_lines ∧
  list_assets_by_type EC2 3 2 three_ec2 = Ok [].
Proof.
  split; [reflexivity|]. split; [lia|].
  pose proof (pagination_complete EC2 three_ec2 (Frame three_lines) 2
                eq_refl ltac:(lia))
    as (Hall & Hlast & _).
  split; [exact Hall | exact Hlast].
Defined.

(** The three records come on two pages, in the order of the table. *)
Example pages_of_three :
  map out_unique_id (page_of EC2 2 three_ec2 1) = ["i-1"; "i-2"] ∧
  map out_unique_id (page_of EC2 2 three_ec2 2) = ["i-3"] ∧
  map out_unique_id (page_of EC2 2 three_ec2 3) = [].
Proof. vm_compute. by split_and!. Qed.

(** The scenario of the specification, on the code: after [ec2] record
    ["i-1"] is created the first page lists one asset; a batch for
    ["i-1"] and ["i-2"] then leaves two lines, the first renamed with
    its [created_at] kept. *)
Example create_then_batch :
  let out := create_assets_batch EC2 [asset "i-1" "renamed"; asset "i-2" "new"] one_ec2 in
  map out_id (page_of EC2 10 one_ec2 1) = ["AssetType.ec2_i-1"] ∧
  is_ok out.1 = true ∧
  map (λ r, (unique_id r, name r, created_at r, updated_at r)) (table_rows EC2 out.2)
    = [("i-1", "renamed", "t0", "t2"); ("i-2", "new", "t3", "t3")] ∧
  puts out.2 = puts one_ec2 ++ [data_key EC2].
Proof. vm_compute. by split_and!. Qed.

End DataLayerFacts.

(** * Properties of the client *)
Module DataLayerClientFacts.
Import DataLayerClient ClientSamples.

Section facts.
Context {St : Type} `{!Remote St} `{!Pandas}.
Implicit Types (w : World St) (existing updates assets : list Asset).

Lemma read_assets_calls (asset_type : string) w r w1 :
  read_assets asset_type w = (r, w1) →
  calls w1 = calls w ++ [GET asset_type].
Proof.
  unfold read_assets. destruct (serve_get asset_type (remote w)).
  by intros [= <- <-].
Qed.

Lemma elem_of_id_set (x : string) (df : DataFrame) :
  x ∈ id_set df ↔ x ∈ map UniqueId df.
Proof. unfold id_set. by rewrite elem_of_list_to_set. Qed.

(** C7 (as amended). When the table read is not empty, the pre-check of
    [batch_update_assets] takes the incoming ids minus the stored ids;
    if that set is not empty the call raises the error naming exactly
    that set (every id that was sent and is not stored, and no other),
    and nothing is written: the only call issued is the read. *)
Theorem batch_update_missing_ids_rejected (asset_type : string)
    updates w existing w1 :
  read_assets asset_type w = (Ok existing, w1) →
  existing ≠ [] →
  id_set updates ∖ id_set existing ≠ ∅ →
  batch_update_assets asset_type updates w
    = (Err (AssetsNotFound (id_set updates ∖ id_set existing)), w1) ∧
  (∀ x, x ∈ (id_set updates ∖ id_set existing) ↔
        x ∈ map UniqueId updates ∧ x ∉ map UniqueId existing) ∧
  remote w1 = (serve_get asset_type (remote w)).2 ∧
  calls w1 = calls w ++ [GET asset_type].
Proof.
  intros Hread Hex Hmiss. split_and!.
  - unfold batch_update_assets. rewrite Hread. unfold missing_check.
    destruct existing as [|e existing]; [done|].
    destruct updates as [|u updates].
    { exfalso. apply Hmiss. apply set_eq. intros x.
      rewrite elem_of_difference, !elem_of_id_set, elem_of_empty. simpl.
      rewrite elem_of_nil. tauto. }
    simpl. by rewrite bool_decide_eq_true_2.
  - intros x. by rewrite elem_of_difference, !elem_of_id_set.
  - unfold read_assets in Hread.
    destruct (serve_get asset_type (remote w)). by inversion Hread.
  - by eapply read_assets_calls.
Qed.

(** C9. When the table read is empty, [batch_update_assets] returns the
    list of updates it was given, raises nothing and writes nothing (the
    only call issued is the read), whatever the ids of the updates. *)
Theorem batch_update_on_empty_table (asset_type : string) updates w w1 :
  read_assets asset_type w = (Ok [], w1) →
  batch_update_assets asset_type updates w = (Ok updates, w1) ∧
  calls w1 = calls w ++ [GET asset_type].
Proof.
  intros Hread. split; [|by eapply read_assets_calls].
  unfold batch_update_assets. by rewrite Hread.
Qed.


Lemma duplicate_check_disjoint existing assets :
  (∀ x, x ∈ map UniqueId assets → x ∉ map UniqueId existing) →
  duplicate_check existing assets = None.
Proof.
  intros Hdis. unfold duplicate_check.
  destruct (negb (empty existing) && negb (empty assets)); [|done].
  rewrite bool_decide_eq_false_2; [done|].
  intros Hne. apply Hne. apply set_eq. intros x.
  rewrite elem_of_intersection, !elem_of_id_set, elem_of_empty.
  split; [intros [H1 H2]; by apply (Hdis x) | done].
Qed.


End facts.

(** [batch_update_missing_ids_rejected] on a table of one asset, for an
    update of that asset and of one that is not stored. *)
Lemma batch_update_missing_ids_rejected_witness :
  let updates := [row "i-1" "stopped"; row "i-9" "running"] in
  let existing := [row "i-1" "running"] in
  let w1 := {| remote := remote one_row; calls := [GET "ec2"] |} in
  read_assets "ec2" one_row = (Ok existing, w1) ∧
  existing ≠ [] ∧
  id_set updates ∖ id_set existing ≠ ∅ ∧
  batch_update_assets "ec2" updates one_row
    = (Err (AssetsNotFound (id_set updates ∖ id_set existing)), w1).
Proof.
  intros updates existing w1.
  assert (Hne : id_set updates ∖ id_set existing ≠ ∅)
    by (apply (bool_decide_unpack _); vm_compute; exact I).
  split_and!; [reflexivity | discriminate | exact Hne |].
  exact (proj1 (batch_update_missing_ids_rejected "ec2" updates one_row
                  existing w1 eq_refl ltac:(discriminate) Hne)).
Defined.

(** C7 fails as stated: with no table stored, an update for ["i-9"] has
    a non-empty difference (["i-9"] is missing), yet the call raises
    nothing and returns the update. *)
Lemma batch_update_missing_id_not_reported :
  let updates := [row "i-9" "running"] in
  "i-9" ∈ id_set updates ∖ id_set [] ∧
  batch_update_assets "ec2" updates nothing
    = (Ok updates, {| remote := remote nothing; calls := [GET "ec2"] |}).
Proof.
  split; [|reflexivity].
  apply (bool_decide_unpack _). vm_compute. exact I.
Qed.

(** [batch_update_on_empty_table] where no table is stored. *)
Lemma batch_update_on_empty_table_witness :
  let w1 := {| remote := remote nothing; calls := [GET "ec2"] |} in
  read_assets "ec2" nothing = (Ok [], w1) ∧
  batch_update_assets "ec2" [row "i-9" "running"] nothing
    = (Ok [row "i-9" "running"], w1) ∧
  calls w1 = calls nothing ++ [GET "ec2"].
Proof.
  intros w1. split; [reflexivity|].
  exact (batch_update_on_empty_table "ec2" [row "i-9" "running"] nothing w1 eq_refl).
Defined.


End DataLayerClientFacts.

(** * Properties of the service *)
Module DataAccessServiceFacts.
Import DataLayer(AssetType, value, RawAsset).
Import DataAccessService DataAccessServiceSpec Samples ServiceSamples.

Section facts.
Context {J St B Asset : Type} `{!JsonCodec J} `{!Backend J St B Asset}.
Implicit Types (w : World J St) (assets : list (RawAsset J)).

Lemma with_failed_id w : with_failed (failed w) w = w.
Proof. by destruct w. Qed.

Lemma create_individual_with_failed (ats : string) (a : RawAsset J) (f : list nat) w :
  create_individual ats a (with_failed f w)
  = ((create_individual ats a w).1, with_failed f (create_individual ats a w).2).
Proof.
  unfold create_individual, post. simpl.
  destruct (serve _ (backend w)) as [[status body|] s]; simpl; [|done].
  by destruct (is_success status).
Qed.

Lemma create_individual_requests (ats : string) (a : RawAsset J) w :
  requests (create_individual ats a w).2
  = requests w ++ [PostAsset ats (formatted_asset a)] ∧
  failed (create_individual ats a w).2 = failed w.
Proof.
  unfold create_individual, post.
  destruct (serve _ (backend w)) as [[status body|] s]; simpl; [|done].
  by destruct (is_success status).
Qed.

Lemma attempts_with_failed (ats : string) assets : ∀ (f : list nat) w,
  attempts ats assets (with_failed f w)
  = ((attempts ats assets w).1, with_failed f (attempts ats assets w).2).
Proof.
  induction assets as [|a rest IH]; intros f w; simpl; [done|].
  rewrite create_individual_with_failed.
  destruct (create_individual ats a w) as [o w'] eqn:Hc. simpl.
  rewrite IH. by destruct (attempts ats rest w').
Qed.

Lemma attempts_requests (ats : string) assets : ∀ w,
  length (attempts ats assets w).1 = length assets ∧
  requests (attempts ats assets w).2
  = requests w ++ map (λ a, PostAsset ats (formatted_asset a)) assets ∧
  failed (attempts ats assets w).2 = failed w.
Proof.
  induction assets as [|a rest IH]; intros w; simpl.
  - by rewrite app_nil_r.
  - destruct (create_individual_requests ats a w) as [Hrq Hf].
    destruct (create_individual ats a w) as [o w'] eqn:Hc. simpl in *.
    destruct (IH w') as (Hlen & Hrq' & Hf').
    destruct (attempts ats rest w') as [os w'']. simpl in *.
    split_and!; [by f_equal | | congruence].
    by rewrite Hrq', Hrq, <- app_assoc.
Qed.

(** The loop of the fallback is the run of the individual creates: it
    gathers the assets created and logs the places of the failures. *)
Lemma fallback_attempts (ats : string) assets : ∀ (i : nat) (created : list Asset) w,
  fallback ats i assets created w
  = (created ++ omap (λ o, o) (attempts ats assets w).1,
     with_failed (failed w ++ failures i (attempts ats assets w).1)
       (attempts ats assets w).2).
Proof.
  induction assets as [|a rest IH]; intros i created w; simpl.
  - by rewrite !app_nil_r, with_failed_id.
  - destruct (create_individual_requests ats a w) as [_ Hf].
    destruct (create_individual ats a w) as [[x|] w'] eqn:Hc; simpl in *.
    + rewrite IH. destruct (attempts ats rest w') as [os w'']. simpl.
      by rewrite <- app_assoc, Hf.
    + change {| backend := backend w'; requests := requests w';
                failed := failed w' ++ [i] |}
        with (with_failed (failed w' ++ [i]) w').
      rewrite IH, attempts_with_failed.
      destruct (attempts ats rest w') as [os w'']. simpl.
      by rewrite <- app_assoc, Hf.
Qed.

(** C8. When the batch POST is answered with an error status
    ([raise_for_status] raises [HTTPStatusError]), [create_assets_batch]
    raises nothing: it sends one individual create per record of the
    batch, in order ([N] of them for [N] records), returns exactly the
    assets whose individual create succeeded, in order, and logs the
    place of each one that failed. *)
Theorem batch_falls_back_to_individual_creates (t : AssetType) assets w
    (status_code : Z) (body : B) (s1 : St) :
  let ats := lower (value t) in
  serve (PostBatch ats assets) (backend w) = (Response status_code body, s1) →
  is_success status_code = false →
  let w1 := {| backend := s1;
               requests := requests w ++ [PostBatch ats assets];
               failed := failed w |} in
  let run := attempts ats assets w1 in
  create_assets_batch t assets w
    = (Ok (omap (λ o, o) run.1),
       with_failed (failed w ++ failures 0 run.1) run.2) ∧
  length run.1 = length assets ∧
  requests run.2
    = requests w ++ PostBatch ats assets
        :: map (λ a, PostAsset ats (formatted_asset a)) assets.
Proof.
  intros ats Hserve Hstatus w1 run.
  destruct (attempts_requests ats assets w1) as (Hlen & Hrq & _).
  split_and!; [|exact Hlen|].
  - unfold create_assets_batch, post. fold ats. rewrite Hserve, Hstatus.
    fold w1. rewrite fallback_attempts. reflexivity.
  - subst run. rewrite Hrq. simpl. by rewrite <- app_assoc.
Qed.

End facts.

(** [batch_falls_back_to_individual_creates] on the scenario of the
    specification: five records are sent, the batch is rejected, five
    individual creates follow, two of them fail, and the three assets
    created are returned. *)
Lemma batch_falls_back_to_individual_creates_witness :
  serve (PostBatch "ec2" five) (backend start) = (Response 500 "KeyError", []) ∧
  is_success 500 = false ∧
  ∃ w',
    create_assets_batch DataLayer.EC2 five start = (Ok ["i-1"; "i-3"; "i-5"], w') ∧
    failed w' = [1; 3] ∧
    length (requests w') = 6 ∧
    backend w' = ["i-1"; "i-3"; "i-5"].
Proof.
  assert (Hserve : serve (PostBatch (lower (value DataLayer.EC2)) five)
                     (backend start) = (Response 500 "KeyError", []))
    by reflexivity.
  assert (Hstatus : is_success 500 = false) by reflexivity.
  split; [exact Hserve|]. split; [exact Hstatus|].
  destruct (batch_falls_back_to_individual_creates DataLayer.EC2 five start
              500 "KeyError" [] Hserve Hstatus) as (Hrun & _ & _).
  eexists. split; [exact Hrun|]. vm_compute. by split_and!.
Defined.

End DataAccessServiceFacts.

(** * Further properties of the data layer *)
Module DataLayerMoreFacts.
Import DataLayer DataLayerSpec DataLayerRoutes DataLayerInvariants Samples.
Import DataLayerFacts.

Section facts.
Context {J : Type} `{!JsonCodec J}.
Implicit Types (w : World J) (t : AssetType) (df : DataFrame).

Lemma data_key_inj t t' : data_key t = data_key t' → t = t'.
Proof.
  destruct t, t'; simpl; intros Heq;
    first [reflexivity | discriminate Heq].
Qed.

Lemma read_table_frame_lookup t w (rows : list Row) :
  read_table t w = Ok (Frame rows) →
  bucket w !! data_key t = Some (Parquet (Frame rows)).
Proof.
  unfold read_table.
  destruct (bucket w !! data_key t) as [[doc|df]|]; intros Heq;
    inversion Heq; by subst.
Qed.

Lemma listed_new_row t (a : AssetCreate J) (c u : string) :
  listed t (new_row t a c u) = answer t a c u.
Proof. unfold listed, new_row, answer. simpl. by rewrite !json_loads_dumps. Qed.

(** [create_asset] in full, when the key of the type holds a table or
    nothing. *)
Lemma create_asset_run t (a : AssetCreate J) w df :
  read_table t w = Ok df →
  let created := clock w (ticks w) in
  let updated := clock w (S (ticks w)) in
  ∃ w',
    create_asset t a w = (Ok (answer t a created updated), w') ∧
    bucket w' !! data_key t
      = Some (Parquet (Frame (frame_rows df ++ [new_row t a created updated]))) ∧
    bucket w' !! metadata_key (make_asset_id t (ac_unique_id a))
      = Some (JsonObject
                {| doc_asset_id := make_asset_id t (ac_unique_id a);
                   doc_asset_type := t;
                   doc_unique_id := ac_unique_id a;
                   doc_name := ac_name a;
                   doc_description := ac_description a;
                   doc_metadata := ac_metadata a;
                   doc_tags := ac_tags a;
                   doc_is_stale := ac_is_stale a;
                   doc_created_at := created;
                   doc_updated_at := updated |}).
Proof.
  intros Hdf created updated. unfold create_asset. simpl.
  rewrite read_table_put_metadata.
  match goal with
  | |- context [read_table t ?x] =>
      rewrite (read_table_same_bucket t x w eq_refl), Hdf
  end.
  eexists. split; [reflexivity|]. simpl. split.
  - by rewrite lookup_insert_eq.
  - rewrite lookup_insert_ne by (symmetry; apply metadata_key_ne_data_key).
    by rewrite lookup_insert_eq.
Qed.

(** X1. Create, then list: when the table of the type (or its absence)
    is read and the limit exceeds the number of stored lines, the first
    page after a [create_asset] is the former listing followed by
    exactly the asset that the create answered. *)
Theorem create_then_list t (a : AssetCreate J) w df (limit : Z) :
  read_table t w = Ok df →
  (Z.of_nat (len df) < limit)%Z →
  ∃ r w',
    create_asset t a w = (Ok r, w') ∧
    list_assets_by_type t 1 limit w'
    = Ok (map (listed t) (frame_rows df) ++ [r]).
Proof.
  intros Hdf Hlimit.
  destruct (create_asset_run t a w df Hdf) as (w' & Hc & Hb & _).
  eexists _, w'. split; [exact Hc|].
  set (rows' := frame_rows df ++ [new_row t a (clock w (ticks w)) (clock w (S (ticks w)))]) in *.
  assert (Hlen : length rows' = S (length (frame_rows df))).
  { subst rows'. rewrite length_app. simpl. lia. }
  pose proof (list_assets_by_type_page t w' (Frame rows') 1 limit Hb) as Hp.
  cbv zeta in Hp. rewrite Hp by (unfold len in *; lia). clear Hp.
  simpl frame_rows. unfold len in Hlimit.
  replace ((1 - 1) * limit)%Z with 0%Z by lia.
  destruct (Z.geb_spec 0 (Z.of_nat (length rows'))) as [Hge|Hlt]; [lia|].
  unfold between. change (Z.to_nat 0) with 0%nat. rewrite drop_0.
  rewrite take_ge by lia.
  subst rows'. by rewrite map_app, <- listed_new_row.
Qed.

Lemma batch_loop_bucket t (assets : list (AssetCreate J)) : ∀ df (nr : list Row) w,
  bucket (batch_loop t df nr w assets).2 = bucket w ∧
  puts (batch_loop t df nr w assets).2 = puts w.
Proof.
  induction assets as [|a rest IH]; intros df nr w; [done|].
  cbn [batch_loop]. unfold batch_step. simpl.
  destruct (col_unique_id df) as [ids|e]; [|done].
  destruct (bool_decide (0 < len df) && any (eq_mask (ac_unique_id a) ids)).
  - destruct (first_created_at _ _); [|done]. by rewrite !(proj1 (IH _ _ _)), !(proj2 (IH _ _ _)).
  - by rewrite !(proj1 (IH _ _ _)), !(proj2 (IH _ _ _)).
Qed.

(** What a write on type [t] leaves alone: every key but the table of
    [t] and the sidecars. *)
Lemma create_asset_other_keys t (a : AssetCreate J) w (k : string) :
  k ≠ data_key t → k ≠ metadata_key (make_asset_id t (ac_unique_id a)) →
  bucket (create_asset t a w).2 !! k = bucket w !! k.
Proof.
  intros Hk Hm. unfold create_asset. simpl.
  destruct (read_table t _); simpl.
  - by rewrite !lookup_insert_ne.
  - by rewrite lookup_insert_ne.
Qed.

Lemma update_asset_other_keys t (u : AssetUpdate) w (k : string) :
  k ≠ data_key t → bucket (update_asset t u w).2 !! k = bucket w !! k.
Proof.
  intros Hk. unfold update_asset.
  destruct (read_table t w); [|done].
  destruct (update_loop _ _); [|done]. simpl. by rewrite lookup_insert_ne.
Qed.

Lemma create_assets_batch_other_keys t (assets : list (AssetCreate J)) w (k : string) :
  k ≠ data_key t → bucket (create_assets_batch t assets w).2 !! k = bucket w !! k.
Proof.
  intros Hk. unfold create_assets_batch.
  destruct (revalidate 0 assets); [|done].
  destruct (read_table t w) as [df|]; [|done].
  pose proof (batch_loop_bucket t assets df [] w) as [Hb _].
  destruct (batch_loop t df [] w assets) as [[[df' nr]|e] w']; simpl in *.
  - destruct (response_data t nr); simpl; by rewrite lookup_insert_ne, Hb.
  - by rewrite Hb.
Qed.

(** X2. The tables do not interfere: [create_asset], [update_asset] and
    [create_assets_batch] on one asset type leave the table stored for
    every other asset type as it was. *)
Theorem writes_stay_in_their_table t t' w :
  t' ≠ t →
  (∀ a : AssetCreate J,
     bucket (create_asset t a w).2 !! data_key t' = bucket w !! data_key t') ∧
  (∀ u : AssetUpdate,
     bucket (update_asset t u w).2 !! data_key t' = bucket w !! data_key t') ∧
  (∀ assets : list (AssetCreate J),
     bucket (create_assets_batch t assets w).2 !! data_key t'
     = bucket w !! data_key t').
Proof.
  intros Hne.
  assert (Hk : data_key t' ≠ data_key t) by (intros ?%data_key_inj; done).
  split_and!.
  - intros a. apply create_asset_other_keys; [done|].
    intros Heq. by apply (metadata_key_ne_data_key
                            (make_asset_id t (ac_unique_id a)) t').
  - intros u. by apply update_asset_other_keys.
  - intros assets. by apply create_assets_batch_other_keys.
Qed.

(** X3. A page never fails and never exceeds its limit: for [page >= 1]
    and [limit >= 1] the listing is answered, has at most [limit]
    assets, and these are stored lines of the type, in the order of the
    table. A type without a table lists nothing. *)
Theorem page_within_limit t (page limit : Z) w :
  (1 ≤ page)%Z → (1 ≤ limit)%Z →
  ∃ l,
    list_assets_by_type t page limit w = Ok l ∧
    (Z.of_nat (length l) ≤ limit)%Z ∧
    sublist l (map (listed t) (table_rows t w)) ∧
    (bucket w !! data_key t = None → l = []).
Proof.
  intros Hpage Hlimit.
  destruct (bucket w !! data_key t) as [[doc|df]|] eqn:Hb.
  - exists []. unfold list_assets_by_type. rewrite Hb.
    split_and!; [done | simpl; lia | apply sublist_nil_l | done].
  - eexists. split; [apply (list_assets_by_type_page t w df page limit Hb); lia|].
    assert (Hrows : table_rows t w = frame_rows df).
    { unfold table_rows, read_table. by rewrite Hb. }
    rewrite Hrows.
    destruct (Z.geb_spec ((page - 1) * limit) (Z.of_nat (length (frame_rows df))))
      as [Hge|Hlt].
    + split_and!; [simpl; lia | apply sublist_nil_l | done].
    + split_and!; [| |done].
      * rewrite length_map. unfold between. rewrite length_take. lia.
      * unfold between.
        change (map (listed t) ?l) with (listed t <$> l).
        apply fmap_sublist.
        etrans; [apply sublist_take | apply sublist_drop].
  - exists []. unfold list_assets_by_type. rewrite Hb.
    split_and!; [done | simpl; lia | apply sublist_nil_l | done].
Qed.

Lemma list_assets_by_type_call_token t (token : string) w :
  list_assets_by_type_call t (PyStr token) PyDefault w = Ok [].
Proof.
  unfold list_assets_by_type_call.
  by destruct (bucket w !! data_key t) as [[doc|df]|].
Qed.

(** X4. [list_all_assets] never lists an asset: whatever is stored,
    with or without a type filter, it answers the empty list, because
    it calls [list_assets_by_type] with the token in the place of
    [page]. *)
Theorem list_all_assets_is_empty (asset_type : option AssetType)
    (token : string) w :
  list_all_assets asset_type token w = Ok [].
Proof.
  unfold list_all_assets. destruct asset_type as [t|].
  - by rewrite list_assets_by_type_call_token.
  - unfold all_types. simpl. by rewrite !list_assets_by_type_call_token.
Qed.

(** X5. Dumping a validated asset and validating it again gives the
    asset back; so the validation loop of [create_assets_batch] never
    raises, and the handler itself never answers 422: a validation
    error can only come from the binding of the body. *)
Theorem revalidation_is_identity :
  (∀ (i : nat) (a : AssetCreate J), validate i (model_dump a) = Ok a) ∧
  (∀ t (assets : list (AssetCreate J)) w errs,
     (create_assets_batch t assets w).1 ≠ Err (HTTP422 errs)).
Proof.
  split.
  - intros i [uid nm d m tg st]. reflexivity.
  - intros t assets w errs.
    destruct (read_table t w) as [[|rows]|e] eqn:Hdf.
    + destruct assets as [|a rest].
      * by rewrite (create_assets_batch_nil t w _ Hdf).
      * by rewrite (create_assets_batch_no_columns t a rest w Hdf).
    + pose proof (create_assets_batch_frame t assets w rows Hdf) as Hb.
      destruct (batch_fold t assets (clock w) (ticks w) rows).
      by rewrite Hb.
    + unfold create_assets_batch. rewrite revalidate_ok, Hdf.
      unfold read_table in Hdf.
      destruct (bucket w !! data_key t) as [[doc|df]|]; by inversion Hdf.
Qed.

(** ** What a batch does to the lines *)

Lemma key_touch_if (a : AssetCreate J) now (r : Row) :
  key (touch_if a now r) = key r.
Proof. unfold touch_if. by case_bool_decide. Qed.

Lemma unique_id_touch_if (a : AssetCreate J) now (r : Row) :
  unique_id (touch_if a now r) = unique_id r.
Proof. unfold touch_if. by case_bool_decide. Qed.

Lemma filter_cons_elem (uid : string) (rows : list Row) r0 frows :
  filter (λ r, unique_id r = uid) rows = r0 :: frows →
  uid ∈ map unique_id rows.
Proof.
  intros Hf. destruct (decide (uid ∈ map unique_id rows)) as [|Hn]; [done|].
  apply filter_nil_not_elem in Hn. congruence.
Qed.

Lemma batch_rows_present t (a : AssetCreate J) now (rows : list Row) :
  ac_unique_id a ∈ unique_ids rows →
  (batch_rows t a now rows).1 = map (touch_if a now) rows.
Proof.
  intros Hin. unfold batch_rows.
  destruct (filter _ rows) as [|r0 frows] eqn:Hf; [|done].
  apply filter_nil_not_elem in Hf. done.
Qed.

Lemma batch_rows_absent t (a : AssetCreate J) now (rows : list Row) :
  ac_unique_id a ∉ unique_ids rows →
  batch_rows t a now rows = (rows ++ [new_row t a now now], new_row t a now now).
Proof.
  intros Hin. unfold batch_rows.
  destruct (filter _ rows) as [|r0 frows] eqn:Hf; [done|].
  by apply filter_cons_elem in Hf.
Qed.

Lemma batch_rows_keys t (a : AssetCreate J) now (rows : list Row) :
  map key (batch_rows t a now rows).1
  = map key rows ++
    (if bool_decide (ac_unique_id a ∈ unique_ids rows) then []
     else [key (new_row t a now now)]).
Proof.
  case_bool_decide as Hin.
  - rewrite batch_rows_present by done. rewrite map_map, app_nil_r.
    apply map_ext. intros r. apply key_touch_if.
  - rewrite batch_rows_absent by done. simpl. by rewrite map_app.
Qed.

Lemma batch_rows_unique_ids t (a : AssetCreate J) now (rows : list Row) :
  unique_ids (batch_rows t a now rows).1
  = unique_ids rows ++
    (if bool_decide (ac_unique_id a ∈ unique_ids rows) then []
     else [ac_unique_id a]).
Proof.
  case_bool_decide as Hin.
  - rewrite batch_rows_present by done. unfold unique_ids.
    rewrite map_map, app_nil_r. apply map_ext. intros r.
    apply unique_id_touch_if.
  - rewrite batch_rows_absent by done. unfold unique_ids. simpl.
    by rewrite map_app.
Qed.

(** The lines after a batch: the former lines keep their place, their
    [asset_id], [unique_id] and [created_at]; the stored [unique_id]s are
    the former ones and those of the batch; they stay pairwise
    distinct. *)
Lemma batch_fold_lines t (assets : list (AssetCreate J)) clk : ∀ n (rows : list Row),
  let res := (batch_fold t assets clk n rows).1 in
  map key rows `prefix_of` map key res ∧
  (∀ u, u ∈ unique_ids res ↔ u ∈ unique_ids rows ∨ u ∈ map ac_unique_id assets) ∧
  (NoDup (unique_ids rows) → NoDup (unique_ids res)).
Proof.
  induction assets as [|a rest IH]; intros n rows; simpl.
  - split_and!; [done | | done].
    intros u. rewrite elem_of_nil. tauto.
  - pose proof (batch_rows_keys t a (clk n) rows) as Hk.
    pose proof (batch_rows_unique_ids t a (clk n) rows) as Hu.
    destruct (batch_rows t a (clk n) rows) as [rows1 x]. simpl in *.
    destruct (IH (S n) rows1) as (Hpre & Hmem & Hnd).
    destruct (batch_fold t rest clk (S n) rows1) as [rows2 xs]. simpl in *.
    split_and!.
    + etrans; [|exact Hpre]. rewrite Hk. by apply prefix_app_r.
    + intros u. rewrite Hmem, Hu, elem_of_app, elem_of_cons.
      case_bool_decide as Hin.
      * rewrite elem_of_nil. split; [tauto|].
        intros [?|[->|?]]; tauto.
      * rewrite list_elem_of_singleton. tauto.
    + intros Hnd0. apply Hnd. rewrite Hu. case_bool_decide as Hin.
      * by rewrite app_nil_r.
      * apply NoDup_app. split_and!; [done | | apply NoDup_singleton].
        intros u Hu1 ->%list_elem_of_singleton. done.
Qed.

(** X6. Upsert keeps the table a table: on a type whose stored table
    has its columns (as after any [create_asset]; not the table without
    columns that an empty batch leaves where none was stored),
    [create_assets_batch] removes no line and moves none (every
    former line keeps its place, [asset_id], [unique_id] and
    [created_at]); afterwards the stored [unique_id]s are exactly the
    former ones and those of the batch; and if they were pairwise
    distinct before, they still are. *)
Theorem batch_upsert_keeps_lines t (assets : list (AssetCreate J)) w
    (rows : list Row) :
  read_table t w = Ok (Frame rows) →
  let w' := (create_assets_batch t assets w).2 in
  map key rows `prefix_of` map key (table_rows t w') ∧
  (∀ u, u ∈ unique_ids (table_rows t w') ↔
        u ∈ unique_ids rows ∨ u ∈ map ac_unique_id assets) ∧
  (NoDup (unique_ids rows) → NoDup (unique_ids (table_rows t w'))).
Proof.
  intros Hdf.
  pose proof (create_assets_batch_frame t assets w rows Hdf) as Hb.
  pose proof (batch_fold_lines t assets (clock w) (ticks w) rows) as Hl.
  destruct (batch_fold t assets (clock w) (ticks w) rows) as [rows' xs].
  simpl in *. rewrite Hb. simpl.
  unfold table_rows. by rewrite read_table_put_data.
Qed.

Lemma filter_map_touch_if (a : AssetCreate J) now (uid : string) (rows : list Row) :
  filter (λ r, unique_id r = uid) (map (touch_if a now) rows)
  = map (touch_if a now) (filter (λ r, unique_id r = uid) rows).
Proof.
  induction rows as [|r rows IH]; [done|].
  simpl. rewrite !filter_cons, unique_id_touch_if.
  destruct (decide (unique_id r = uid)); simpl; by rewrite IH.
Qed.

Lemma head_filter_batch_rows t (a : AssetCreate J) now (rows : list Row)
    (uid : string) (r0 : Row) :
  head (filter (λ r, unique_id r = uid) rows) = Some r0 →
  ∃ r1, head (filter (λ r, unique_id r = uid) (batch_rows t a now rows).1) = Some r1 ∧
        created_at r1 = created_at r0.
Proof.
  intros Hhead.
  destruct (decide (ac_unique_id a ∈ unique_ids rows)) as [Hin|Hin].
  - rewrite batch_rows_present, filter_map_touch_if by done.
    destruct (filter _ rows) as [|r frows]; simplify_eq/=.
    eexists. split; [done|].
    pose proof (key_touch_if a now r0) as Hk. unfold key in Hk. congruence.
  - rewrite batch_rows_absent by done. simpl. rewrite filter_app.
    destruct (filter _ rows) as [|r frows]; simplify_eq/=. eauto.
Qed.

(** The line reported for the [i]-th record of a batch. *)
Lemma batch_fold_report t (assets : list (AssetCreate J)) clk :
  ∀ n (rows : list Row) i a,
  assets !! i = Some a →
  ∃ created,
    (batch_fold t assets clk n rows).2 !! i
      = Some (new_row t a created (clk (n + i))) ∧
    (ac_unique_id a ∉ unique_ids rows →
     ac_unique_id a ∉ map ac_unique_id (take i assets) →
     created = clk (n + i)) ∧
    (∀ r0, head (filter (λ r, unique_id r = ac_unique_id a) rows) = Some r0 →
           created = created_at r0).
Proof.
  induction assets as [|a0 rest IH]; intros n rows i a Hi; [done|].
  destruct i as [|i]; simpl in Hi.
  - inversion Hi; subst a0. simpl.
    destruct (batch_rows t a (clk n) rows) as [rows1 x] eqn:Hb.
    destruct (batch_fold t rest clk (S n) rows1) as [rows2 xs]. simpl.
    rewrite Nat.add_0_r. unfold batch_rows in Hb.
    destruct (filter _ rows) as [|r0 frows] eqn:Hf; inversion Hb; subst.
    + exists (clk n). split_and!; [done | done | done].
    + exists (created_at r0). split_and!; [done | | by intros ? [= ->]].
      intros Hnot. by apply filter_cons_elem in Hf.
  - simpl.
    pose proof (batch_rows_unique_ids t a0 (clk n) rows) as Hu.
    pose proof (λ r0, head_filter_batch_rows t a0 (clk n) rows (ac_unique_id a) r0)
      as Hh.
    destruct (batch_rows t a0 (clk n) rows) as [rows1 x]. simpl in *.
    destruct (IH (S n) rows1 i a Hi) as (created & Hlook & Hfresh & Hold).
    destruct (batch_fold t rest clk (S n) rows1) as [rows2 xs]. simpl in *.
    exists created. replace (n + S i) with (S n + i) by lia.
    split_and!; [done | |].
    + intros Hn1 Hn2. apply not_elem_of_cons in Hn2 as [Hne Hn2].
      apply Hfresh; [|done]. rewrite Hu. case_bool_decide.
      * by rewrite app_nil_r.
      * rewrite elem_of_app, list_elem_of_singleton. intros [?|?]; done.
    + intros r0 Hr0. destruct (Hh r0 Hr0) as (r1 & Hr1 & <-). by apply Hold.
Qed.

(** X7. On a type whose stored table has its columns,
    [create_assets_batch] answers one asset per record of the batch, in
    the order of the batch, each with the fields of its record and, as [updated_at], its
    own reading of the clock; a record whose [unique_id] is stored is
    answered with the [created_at] of the first stored line that has
    it, a record whose [unique_id] is neither stored nor earlier in the
    batch with [created_at = updated_at]. The table is written once and
    the clock is read once per record. *)
Theorem batch_upsert_answers t (assets : list (AssetCreate J)) w
    (rows : list Row) :
  read_table t w = Ok (Frame rows) →
  ∃ resp w',
    create_assets_batch t assets w = (Ok resp, w') ∧
    length resp = length assets ∧
    puts w' = puts w ++ [data_key t] ∧
    ticks w' = length assets + ticks w ∧
    ∀ i a, assets !! i = Some a →
      ∃ created,
        resp !! i = Some (answer t a created (clock w (ticks w + i))) ∧
        (ac_unique_id a ∉ unique_ids rows →
         ac_unique_id a ∉ map ac_unique_id (take i assets) →
         created = clock w (ticks w + i)) ∧
        (∀ r0, head (filter (λ r, unique_id r = ac_unique_id a) rows) = Some r0 →
               created = created_at r0).
Proof.
  intros Hdf.
  pose proof (create_assets_batch_frame t assets w rows Hdf) as Hb.
  pose proof (batch_fold_reports t assets (clock w) (ticks w) rows) as Hrep.
  pose proof (batch_fold_report t assets (clock w) (ticks w) rows) as Hi.
  destruct (batch_fold t assets (clock w) (ticks w) rows) as [rows' xs].
  simpl in *. eexists _, _. split; [exact Hb|].
  apply Forall2_length in Hrep as Hlen.
  split_and!; [| done | done |].
  - rewrite length_zip_with. lia.
  - intros i a Ha. destruct (Hi i a Ha) as (created & Hx & Hfresh & Hold).
    exists created. split_and!; [|done|done].
    rewrite lookup_zip_with, Ha. simpl. by rewrite Hx.
Qed.

(** ** The same batch twice *)

Lemma batch_fold_present t (assets : list (AssetCreate J)) clk :
  ∀ n (rows : list Row),
  (∀ a, a ∈ assets → ac_unique_id a ∈ unique_ids rows) →
  (batch_fold t assets clk n rows).1 = map (touch_all assets clk n) rows.
Proof.
  induction assets as [|a rest IH]; intros n rows Hall; simpl.
  - by rewrite map_id.
  - pose proof (batch_rows_present t a (clk n) rows (Hall a ltac:(left))) as Hp.
    destruct (batch_rows t a (clk n) rows) as [rows1 x]. simpl in Hp. subst rows1.
    specialize (IH (S n) (map (touch_if a (clk n)) rows)).
    destruct (batch_fold t rest clk (S n) (map (touch_if a (clk n)) rows))
      as [rows2 xs]. simpl in *.
    rewrite IH.
    + by rewrite map_map.
    + intros a' Ha'. unfold unique_ids. rewrite map_map.
      rewrite (map_ext _ unique_id) by (intros; apply unique_id_touch_if).
      apply Hall. by right.
Qed.

Lemma touched_same_key (a : AssetCreate J) now now' (r r' : Row) :
  key r = key r' →
  but_updated_at (touched a now r) = but_updated_at (touched a now' r').
Proof. unfold key, but_updated_at, touched. simpl. by intros [= -> -> ->]. Qed.

Lemma touch_all_last_match (assets : list (AssetCreate J)) clk : ∀ n (r : Row),
  but_updated_at (touch_all assets clk n r)
  = match last_match assets (unique_id r) with
    | Some a => but_updated_at (touched a "" r)
    | None => but_updated_at r
    end.
Proof.
  induction assets as [|a rest IH]; intros n r; simpl; [done|].
  rewrite IH, unique_id_touch_if.
  destruct (last_match rest (unique_id r)) as [x|].
  - apply touched_same_key, key_touch_if.
  - unfold touch_if. rewrite (bool_decide_ext (ac_unique_id a = unique_id r)
                                (unique_id r = ac_unique_id a)) by done.
    case_bool_decide; [|done]. by apply touched_same_key.
Qed.

Lemma batch_rows_elem t (a : AssetCreate J) now (rows : list Row) (r1 : Row) :
  r1 ∈ (batch_rows t a now rows).1 →
  if bool_decide (ac_unique_id a = unique_id r1) then carries r1 a
  else r1 ∈ rows.
Proof.
  intros Hin. destruct (decide (ac_unique_id a ∈ unique_ids rows)) as [Hp|Hp].
  - rewrite batch_rows_present in Hin by done.
    apply list_elem_of_fmap in Hin as (r & -> & Hr).
    rewrite unique_id_touch_if. unfold touch_if.
    rewrite (bool_decide_ext (ac_unique_id a = unique_id r)
               (unique_id r = ac_unique_id a)) by done.
    case_bool_decide; [|done]. by repeat split.
  - rewrite batch_rows_absent in Hin by done. simpl in Hin.
    apply elem_of_app in Hin as [Hin| ->%list_elem_of_singleton].
    + case_bool_decide as Heq; [|done].
      exfalso. apply Hp. rewrite Heq. unfold unique_ids.
      by apply (list_elem_of_fmap_2 unique_id).
    + simpl. rewrite bool_decide_eq_true_2 by done. by repeat split.
Qed.

(** After a batch, a line whose [unique_id] is in the batch carries the
    fields of the last record that has it; the other lines are lines
    there were before. *)
Lemma batch_fold_elem t (assets : list (AssetCreate J)) clk :
  ∀ n (rows : list Row) (r1 : Row),
  r1 ∈ (batch_fold t assets clk n rows).1 →
  match last_match assets (unique_id r1) with
  | Some a => carries r1 a
  | None => r1 ∈ rows
  end.
Proof.
  induction assets as [|a rest IH]; intros n rows r1 Hin; [done|].
  simpl in *.
  pose proof (batch_rows_elem t a (clk n) rows r1) as Hstep.
  destruct (batch_rows t a (clk n) rows) as [rows1 x]. simpl in *.
  specialize (IH (S n) rows1 r1).
  destruct (batch_fold t rest clk (S n) rows1) as [rows2 xs]. simpl in *.
  specialize (IH Hin).
  destruct (last_match rest (unique_id r1)) as [x'|]; [done|].
  specialize (Hstep IH). by case_bool_decide.
Qed.

Lemma carries_touched (a : AssetCreate J) (r : Row) :
  carries r a → but_updated_at (touched a "" r) = but_updated_at r.
Proof.
  unfold carries, but_updated_at, touched. simpl.
  by intros (-> & -> & -> & -> & ->).
Qed.

(** X8. Upsert is idempotent up to [updated_at]: on a type whose
    stored table has its columns, sending the same batch a second time
    is answered
    again, adds no line, and leaves every line as the first call left
    it except for its [updated_at]; in particular every [created_at] is
    unchanged. *)
Theorem batch_upsert_twice t (assets : list (AssetCreate J)) w
    (rows : list Row) :
  read_table t w = Ok (Frame rows) →
  let first := create_assets_batch t assets w in
  let second := create_assets_batch t assets first.2 in
  is_ok first.1 = true ∧ is_ok second.1 = true ∧
  map but_updated_at (table_rows t second.2)
  = map but_updated_at (table_rows t first.2).
Proof.
  intros Hdf.
  pose proof (create_assets_batch_frame t assets w rows Hdf) as Hb.
  pose proof (batch_fold_lines t assets (clock w) (ticks w) rows) as (_ & Hmem & _).
  pose proof (batch_fold_elem t assets (clock w) (ticks w) rows) as Helem.
  destruct (batch_fold t assets (clock w) (ticks w) rows) as [rows1 xs].
  simpl in *. rewrite Hb. simpl.
  set (w1 := put_object (data_key t) (Parquet (Frame rows1))
               (advance (length assets) w)).
  assert (Hdf1 : read_table t w1 = Ok (Frame rows1))
    by apply read_table_put_data.
  pose proof (create_assets_batch_frame t assets w1 rows1 Hdf1) as Hb2.
  pose proof (batch_fold_present t assets (clock w1) (ticks w1) rows1) as Hp.
  destruct (batch_fold t assets (clock w1) (ticks w1) rows1) as [rows2 xs2].
  simpl in Hb2, Hp. rewrite Hb2. simpl.
  split_and!; [done | done |].
  unfold table_rows. rewrite read_table_put_data, Hdf1. simpl.
  rewrite Hp.
  - rewrite map_map. apply map_ext_in. intros r1 Hr1%list_elem_of_In.
    rewrite touch_all_last_match. specialize (Helem r1 Hr1).
    destruct (last_match assets (unique_id r1)); [|done].
    by apply carries_touched.
  - intros a Ha. apply Hmem. right. by apply (list_elem_of_fmap_2 ac_unique_id).
Qed.

(** X9. The first write for a type has to be a [create_asset]: once a
    [create_asset] has succeeded for the type, every
    [create_assets_batch] on it is answered, whereas before any write a
    batch with a record is answered 500. *)
Theorem batch_after_create t (a : AssetCreate J) (assets : list (AssetCreate J))
    w df :
  read_table t w = Ok df →
  is_ok (create_assets_batch t assets (create_asset t a w).2).1 = true ∧
  (bucket w !! data_key t = None →
   (create_assets_batch t (a :: assets) w).1
   = Err (HTTP500 (KeyError "unique_id"))).
Proof.
  intros Hdf. split.
  - destruct (create_asset_ok t a w df Hdf)
      as (r & w' & Hc & _ & _ & _ & _ & Hread & _).
    rewrite Hc. simpl.
    pose proof (create_assets_batch_frame t assets w' _ Hread) as Hb.
    destruct (batch_fold t assets (clock w') (ticks w') _). by rewrite Hb.
  - intros Hnone.
    rewrite (create_assets_batch_no_columns t a assets w); [done|].
    unfold read_table. by rewrite Hnone.
Qed.

(** ** [update_asset] *)

(** X10. On a type without a stored table, [update_asset] with at least
    one row is answered 500: [df['unique_id']] raises [KeyError] on the
    frame without columns (line 236). Nothing is written. *)
Theorem update_absent_table_fails t (row : Row) (rest : list Row)
    (sch : option (list (string * string))) w :
  bucket w !! data_key t = None →
  update_asset t {| data := row :: rest; schema := sch |} w
  = (Err (HTTP500 (KeyError "unique_id")), w).
Proof.
  intros Hnone. unfold update_asset, read_table. by rewrite Hnone.
Qed.

Lemma update_asset_new t (u : AssetUpdate) w (rows : list Row) :
  read_table t w = Ok (Frame rows) →
  brings_new rows (data u) →
  update_asset t u w
  = (Ok (length (data u)),
     put_object (data_key t) (Parquet (Frame (rows ++ data u))) w).
Proof.
  intros Hdf [Hnd Hnew]. unfold update_asset.
  by rewrite Hdf, (update_loop_new (data u) rows Hnd Hnew).
Qed.

(** X11. What [update_asset] accepts: on a type whose stored table has
    its columns, the call is answered exactly when its rows bring only
    new [unique_id]s (no two rows with the same, none that is stored).
    It then appends the rows, in order, to the lines of the table,
    writes the table once and answers the number of rows. In every
    other case it is answered 500 and the world is as before. *)
Theorem update_appends_new_rows t (u : AssetUpdate) w (rows : list Row) :
  read_table t w = Ok (Frame rows) →
  let out := update_asset t u w in
  (is_ok out.1 = true ↔ brings_new rows (data u)) ∧
  (is_ok out.1 = true →
   out = (Ok (length (data u)),
          put_object (data_key t) (Parquet (Frame (rows ++ data u))) w) ∧
   table_rows t out.2 = rows ++ data u ∧
   puts out.2 = puts w ++ [data_key t]) ∧
  (is_ok out.1 = false → ∃ e, out = (Err (HTTP500 e), w)).
Proof.
  intros Hdf out.
  assert (Hfail : ¬ brings_new rows (data u) → ∃ e, out = (Err (HTTP500 e), w)).
  { intros Hnot.
    destruct (update_loop_raises (data u) rows Hnot) as (e & He & _).
    exists e. subst out. unfold update_asset. by rewrite Hdf, He. }
  assert (Hok : brings_new rows (data u) →
                out = (Ok (length (data u)),
                       put_object (data_key t)
                         (Parquet (Frame (rows ++ data u))) w))
    by apply (update_asset_new t u w rows Hdf).
  split_and!.
  - split.
    + intros Hans.
      destruct (decide (NoDup (unique_ids (data u)))) as [Hnd|Hnd].
      * destruct (decide (Forall (λ x, x ∉ unique_ids rows)
                            (unique_ids (data u)))) as [Hall|Hall].
        { split; [done|]. by apply Forall_forall. }
        destruct Hfail as [e He].
        { intros [_ Hnew]. apply Hall. by apply Forall_forall. }
        by rewrite He in Hans.
      * destruct Hfail as [e He]; [by intros [? _]|]. by rewrite He in Hans.
    + intros Hnew. by rewrite (Hok Hnew).
  - intros Hans.
    assert (Hnew : brings_new rows (data u)).
    { destruct (decide (NoDup (unique_ids (data u)))) as [Hnd|Hnd].
      - destruct (decide (Forall (λ x, x ∉ unique_ids rows)
                            (unique_ids (data u)))) as [Hall|Hall].
        { split; [done|]. by apply Forall_forall. }
        destruct Hfail as [e He].
        { intros [_ Hnew]. apply Hall. by apply Forall_forall. }
        by rewrite He in Hans.
      - destruct Hfail as [e He]; [by intros [? _]|]. by rewrite He in Hans. }
    rewrite (Hok Hnew). simpl. split_and!; [done | | done].
    unfold table_rows. by rewrite read_table_put_data.
  - intros Hans. apply Hfail. intros Hnew. by rewrite (Hok Hnew) in Hans.
Qed.

(** X12. An update cannot be sent twice: on a type whose stored table
    has its columns, when an update with at least one row has been
    answered, the same update sent again is answered 500 (the
    [ValueError] of line 238: its first row is stored now) and changes
    nothing. *)
Theorem update_not_replayable t (u : AssetUpdate) w (rows : list Row) :
  read_table t w = Ok (Frame rows) →
  data u ≠ [] →
  let first := update_asset t u w in
  is_ok first.1 = true →
  update_asset t u first.2 = (Err (HTTP500 ValueError), first.2).
Proof.
  intros Hdf Hne first Hans.
  assert (Hnew : brings_new rows (data u)).
  { destruct (decide (NoDup (unique_ids (data u)))) as [Hnd|Hnd].
    - destruct (decide (Forall (λ x, x ∉ unique_ids rows)
                          (unique_ids (data u)))) as [Hall|Hall].
      { split; [done|]. by apply Forall_forall. }
      destruct (update_loop_raises (data u) rows) as (e & He & _).
      { intros [_ Hnew]. apply Hall. by apply Forall_forall. }
      subst first. unfold update_asset in Hans. by rewrite Hdf, He in Hans.
    - destruct (update_loop_raises (data u) rows) as (e & He & _);
        [by intros [? _]|].
      subst first. unfold update_asset in Hans. by rewrite Hdf, He in Hans. }
  subst first. rewrite (update_asset_new t u w rows Hdf Hnew). simpl.
  set (w1 := put_object (data_key t) (Parquet (Frame (rows ++ data u))) w).
  assert (Hdf1 : read_table t w1 = Ok (Frame (rows ++ data u)))
    by apply read_table_put_data.
  unfold update_asset. rewrite Hdf1.
  destruct Hnew as [Hnd Hnew].
  destruct (data u) as [|row rest] eqn:Hdata; [done|].
  cbn [update_loop]. unfold update_step. simpl.
  assert (Hin : unique_id row ∈ map unique_id (rows ++ row :: rest)).
  { rewrite map_app, elem_of_app. right. simpl. left. }
  rewrite any_eq_mask, (bool_decide_eq_true_2 _ Hin).
  unfold loc_set.
  assert (Hone : selected (eq_mask (unique_id row)
                             (map unique_id (rows ++ row :: rest))) = 1).
  { unfold selected. rewrite map_app. unfold eq_mask. rewrite map_app.
    rewrite filter_app, length_app.
    assert (Hzero : ∀ ids : list string, unique_id row ∉ ids →
              length (filter (λ b : bool, b = true)
                        (map (λ x, bool_decide (x = unique_id row)) ids)) = 0).
    { induction ids as [|x ids IH]; intros Hx; [done|].
      apply not_elem_of_cons in Hx as [Hx1 Hx2]. simpl. rewrite filter_cons.
      rewrite bool_decide_eq_false_2 by done.
      rewrite decide_False by done. by apply IH. }
    rewrite Hzero by (apply Hnew; simpl; left).
    simpl. rewrite filter_cons.
    rewrite bool_decide_eq_true_2 by done. rewrite decide_True by done.
    simpl. f_equal. apply Hzero.
    simpl in Hnd. by apply NoDup_cons in Hnd as [? _]. }
  rewrite Hone. by rewrite bool_decide_eq_false_2 by lia.
Qed.

End facts.

Import MoreSamples.

Lemma create_then_list_witness :
  read_table EC2 stored = Ok (Frame stored_lines) ∧
  (Z.of_nat (len (Frame stored_lines)) < 10)%Z ∧
  ∃ r w',
    create_asset EC2 (asset "i-2" "db") stored = (Ok r, w') ∧
    list_assets_by_type EC2 1 10 w'
    = Ok (map (listed EC2) stored_lines ++ [r]).
Proof.
  split; [reflexivity|]. split; [reflexivity|].
  exact (create_then_list EC2 (asset "i-2" "db") stored (Frame stored_lines) 10
           eq_refl eq_refl).
Defined.

Lemma writes_stay_in_their_table_witness :
  VPC ≠ EC2 ∧
  ∀ assets : list (AssetCreate string),
    bucket (create_assets_batch EC2 assets stored).2 !! data_key VPC
    = bucket stored !! data_key VPC.
Proof.
  split; [discriminate|].
  exact (proj2 (proj2 (writes_stay_in_their_table EC2 VPC stored
                         ltac:(discriminate)))).
Defined.

Lemma page_within_limit_witness :
  (1 ≤ 2)%Z ∧ (1 ≤ 2)%Z ∧
  ∃ l,
    list_assets_by_type EC2 2 2 three_ec2 = Ok l ∧
    (Z.of_nat (length l) ≤ 2)%Z.
Proof.
  split; [lia|]. split; [lia|].
  destruct (page_within_limit EC2 2 2 three_ec2 ltac:(lia) ltac:(lia))
    as (l & Hl & Hlen & _).
  exists l. by split.
Defined.

Lemma batch_upsert_keeps_lines_witness :
  read_table EC2 stored = Ok (Frame stored_lines) ∧
  NoDup (unique_ids stored_lines) ∧
  NoDup (unique_ids (table_rows EC2 (create_assets_batch EC2 batch stored).2)).
Proof.
  assert (Hnd : NoDup (unique_ids stored_lines))
    by (apply NoDup_singleton).
  split; [reflexivity|]. split; [exact Hnd|].
  exact (proj2 (proj2 (batch_upsert_keeps_lines EC2 batch stored stored_lines
                         eq_refl)) Hnd).
Defined.

Lemma batch_upsert_answers_witness :
  read_table EC2 stored = Ok (Frame stored_lines) ∧
  ∃ resp w',
    create_assets_batch EC2 batch stored = (Ok resp, w') ∧
    length resp = 2 ∧
    puts w' = [data_key EC2] ∧ ticks w' = 4.
Proof.
  split; [reflexivity|].
  destruct (batch_upsert_answers EC2 batch stored stored_lines eq_refl)
    as (resp & w' & Hb & Hlen & Hputs & Hticks & _).
  exists resp, w'. by split_and!.
Defined.

Lemma batch_upsert_twice_witness :
  read_table EC2 stored = Ok (Frame stored_lines) ∧
  let first := create_assets_batch EC2 batch stored in
  let second := create_assets_batch EC2 batch first.2 in
  map but_updated_at (table_rows EC2 second.2)
  = map but_updated_at (table_rows EC2 first.2).
Proof.
  split; [reflexivity|].
  exact (proj2 (proj2 (batch_upsert_twice EC2 batch stored stored_lines eq_refl))).
Defined.

Lemma batch_after_create_witness :
  read_table EC2 fresh = Ok NoColumns ∧
  bucket fresh !! data_key EC2 = None ∧
  is_ok (create_assets_batch EC2 batch
           (create_asset EC2 (asset "i-1" "web") fresh).2).1 = true ∧
  (create_assets_batch EC2 (asset "i-1" "web" :: batch) fresh).1
  = Err (HTTP500 (KeyError "unique_id")).
Proof.
  split; [reflexivity|]. split; [reflexivity|].
  destruct (batch_after_create EC2 (asset "i-1" "web") batch fresh NoColumns
              eq_refl) as [Hok Hfail].
  split; [exact Hok | exact (Hfail eq_refl)].
Defined.

Lemma update_absent_table_fails_witness :
  bucket fresh !! data_key EC2 = None ∧
  update_asset EC2 {| data := [renamed]; schema := None |} fresh
  = (Err (HTTP500 (KeyError "unique_id")), fresh).
Proof.
  split; [reflexivity|].
  exact (update_absent_table_fails EC2 renamed [] None fresh eq_refl).
Defined.

Lemma update_appends_new_rows_witness :
  read_table EC2 stored = Ok (Frame stored_lines) ∧
  let out := update_asset EC2 {| data := [added]; schema := None |} stored in
  (is_ok out.1 = true ↔ brings_new stored_lines [added]) ∧
  out.1 = Ok 1 ∧
  table_rows EC2 out.2 = stored_lines ++ [added].
Proof.
  split; [reflexivity|].
  destruct (update_appends_new_rows EC2 {| data := [added]; schema := None |}
              stored stored_lines eq_refl) as (Hiff & Hok & _).
  split; [exact Hiff|].
  destruct (Hok eq_refl) as (Hout & Hrows & _).
  split; [by rewrite Hout | exact Hrows].
Defined.

Lemma update_not_replayable_witness :
  read_table EC2 stored = Ok (Frame stored_lines) ∧
  data {| data := [added]; schema := None |} ≠ [] ∧
  let first := update_asset EC2 {| data := [added]; schema := None |} stored in
  is_ok first.1 = true ∧
  update_asset EC2 {| data := [added]; schema := None |} first.2
  = (Err (HTTP500 ValueError), first.2).
Proof.
  split; [reflexivity|]. split; [discriminate|]. split; [reflexivity|].
  exact (update_not_replayable EC2 {| data := [added]; schema := None |}
           stored stored_lines eq_refl ltac:(discriminate) eq_refl).
Defined.

End DataLayerMoreFacts.

(** * Further properties of the client *)
Module DataLayerClientMoreFacts.
Import DataLayerClient DataLayerClientDelete ClientSamples.
Import DataLayerClientFacts.

Section facts.
Context {St : Type} `{!Remote St}.
Implicit Types (w : World St) (existing updates assets : list Asset).

Lemma read_assets_remote (asset_type : string) w r w1 :
  read_assets asset_type w = (r, w1) →
  w1 = {| remote := (serve_get asset_type (remote w)).2;
          calls := calls w ++ [GET asset_type] |}.
Proof.
  unfold read_assets. destruct (serve_get asset_type (remote w)).
  by intros [= <- <-].
Qed.

Lemma select_map (p : Asset → bool) (f : Asset → Asset) (df : list Asset) :
  select (map p df) (map f df) = map f (filter (λ r, p r = true) df).
Proof.
  unfold select. induction df as [|r df IH]; [done|].
  simpl. rewrite !filter_cons. simpl.
  destruct (decide (p r = true)) as [Hp|Hp]; simpl;
    [f_equal|]; exact IH.
Qed.

Lemma select_filter (p : Asset → bool) (df : list Asset) :
  select (map p df) df = filter (λ r, p r = true) df.
Proof.
  rewrite <- (map_id df) at 2. rewrite select_map. by rewrite map_id.
Qed.

(** X13. [batch_create_assets] rejects stored ids: when neither the
    table read nor the batch is empty and some incoming id is stored,
    the call raises the error naming exactly the ids that are both
    incoming and stored, and nothing is written (the only call issued is
    the read). *)
Theorem batch_create_duplicates_rejected (asset_type : string)
    assets w existing w1 :
  read_assets asset_type w = (Ok existing, w1) →
  existing ≠ [] → assets ≠ [] →
  id_set assets ∩ id_set existing ≠ ∅ →
  batch_create_assets asset_type assets w
    = (Err (DuplicateUniqueIds (id_set assets ∩ id_set existing)), w1) ∧
  (∀ x, x ∈ id_set assets ∩ id_set existing ↔
        x ∈ map UniqueId assets ∧ x ∈ map UniqueId existing) ∧
  calls w1 = calls w ++ [GET asset_type].
Proof.
  intros Hread Hex Has Hdup. split_and!.
  - unfold batch_create_assets. rewrite Hread. unfold duplicate_check.
    destruct existing; [done|]. destruct assets; [done|]. simpl.
    by rewrite bool_decide_eq_true_2.
  - intros x. by rewrite elem_of_intersection, !elem_of_id_set.
  - by eapply read_assets_calls.
Qed.

(** X14. [batch_create_assets] appends: when no incoming id is stored,
    the table posted is the stored lines followed by the batch, in
    order, and the batch is returned if the post succeeds; if the stored
    ids and the incoming ids were each pairwise distinct, the ids of the
    posted table are pairwise distinct. *)
Theorem batch_create_appends (asset_type : string) assets w existing w1 :
  read_assets asset_type w = (Ok existing, w1) →
  (∀ x, x ∈ map UniqueId assets → x ∉ map UniqueId existing) →
  let combined := existing ++ assets in
  let posted := serve_post asset_type combined (remote w1) in
  batch_create_assets asset_type assets w
    = (match posted.1 with Ok _ => Ok assets | Err e => Err e end,
       {| remote := posted.2;
          calls := calls w1 ++ [POST asset_type combined] |}) ∧
  (NoDup (map UniqueId existing) → NoDup (map UniqueId assets) →
   NoDup (map UniqueId combined)).
Proof.
  intros Hread Hdis combined posted. split.
  - unfold batch_create_assets.
    rewrite Hread, (duplicate_check_disjoint existing assets Hdis).
    cbv zeta. unfold write_assets. subst combined posted.
    destruct existing as [|e0 existing].
    + simpl.
      match goal with
      | |- context [serve_post ?t ?l ?s] =>
          destruct (serve_post t l s) as [[[]|e] s']
      end; reflexivity.
    + destruct assets as [|a0 assets]; simpl; rewrite ?app_nil_r;
      match goal with
      | |- context [serve_post ?t ?l ?s] =>
          destruct (serve_post t l s) as [[[]|e] s']
      end; reflexivity.
  - intros Hnd1 Hnd2. subst combined. rewrite map_app.
    apply NoDup_app. split_and!; [done | | done].
    intros x Hx1 Hx2. by apply (Hdis x).
Qed.

Lemma delete_check_present existing (asset_ids : list string) :
  (∀ x, x ∈ asset_ids → x ∈ map UniqueId existing) →
  delete_check existing asset_ids = None.
Proof.
  intros Hall. unfold delete_check. destruct (negb (empty existing)); [|done].
  rewrite bool_decide_eq_false_2; [done|].
  intros Hne. apply Hne. apply set_eq. intros x.
  rewrite elem_of_difference, elem_of_list_to_set, elem_of_id_set, elem_of_empty.
  split; [intros [H1 H2]; by apply H2, Hall | done].
Qed.

(** X16. [batch_delete_assets] removes exactly the named lines: when the
    table read is not empty and every id to delete is stored, the table
    posted is the stored table without the lines whose id is named, the
    other lines staying in their order, and the ids are returned if the
    post succeeds. *)
Theorem batch_delete_removes (asset_type : string) (asset_ids : list string)
    w existing w1 :
  read_assets asset_type w = (Ok existing, w1) →
  existing ≠ [] →
  (∀ x, x ∈ asset_ids → x ∈ map UniqueId existing) →
  let remaining := filter (λ r, UniqueId r ∉ asset_ids) existing in
  let posted := serve_post asset_type remaining (remote w1) in
  batch_delete_assets asset_type asset_ids w
    = (match posted.1 with
       | Ok _ => Ok asset_ids
       | Err e => Err (ClientExn e)
       end,
       {| remote := posted.2;
          calls := calls w1 ++ [POST asset_type remaining] |}) ∧
  remaining `sublist_of` existing ∧
  (∀ r, r ∈ remaining ↔ r ∈ existing ∧ UniqueId r ∉ asset_ids).
Proof.
  intros Hread Hex Hall remaining posted. split_and!.
  - unfold batch_delete_assets.
    rewrite Hread, (delete_check_present existing asset_ids Hall).
    assert (He : empty existing = false) by (by destruct existing).
    rewrite He.
    cbv zeta. unfold isin_ids. rewrite map_map.
    rewrite (select_filter (λ r, negb (bool_decide (UniqueId r ∈ asset_ids)))).
    assert (Hf : filter (λ r, negb (bool_decide (UniqueId r ∈ asset_ids)) = true)
                   existing = remaining).
    { subst remaining. apply list_filter_iff. intros r.
      case_bool_decide; simpl; naive_solver. }
    rewrite Hf. unfold write_assets. subst posted.
    destruct (serve_post asset_type remaining (remote w1)) as [[[]|e] s'];
      reflexivity.
  - apply sublist_filter.
  - intros r. subst remaining. rewrite list_elem_of_filter. tauto.
Qed.

(** X17. [batch_delete_assets] fails without writing when an id is not
    stored or when nothing is stored: on a non-empty table, the error
    names exactly the ids to delete that are not stored; on an empty
    table, whatever the ids (even none), line 218 raises [KeyError]. In
    both cases the only call issued is the read. *)
Theorem batch_delete_refused (asset_type : string) (asset_ids : list string)
    w existing w1 :
  read_assets asset_type w = (Ok existing, w1) →
  (existing ≠ [] →
   list_to_set asset_ids ∖ id_set existing ≠ (∅ : gset string) →
   batch_delete_assets asset_type asset_ids w
   = (Err (ClientExn (AssetsNotFound (list_to_set asset_ids ∖ id_set existing))),
      w1)) ∧
  (existing = [] →
   batch_delete_assets asset_type asset_ids w
   = (Err (KeyError "UniqueId"), w1)) ∧
  calls w1 = calls w ++ [GET asset_type].
Proof.
  intros Hread. split_and!.
  - intros Hex Hmiss. unfold batch_delete_assets. rewrite Hread.
    unfold delete_check. destruct existing; [done|]. simpl.
    by rewrite bool_decide_eq_true_2.
  - intros ->. unfold batch_delete_assets. by rewrite Hread.
  - by eapply read_assets_calls.
Qed.

End facts.

Lemma batch_create_duplicates_rejected_witness :
  let assets := [row "i-1" "stopped"; row "i-7" "running"] in
  let existing := [row "i-1" "running"] in
  let w1 := {| remote := remote one_row; calls := [GET "ec2"] |} in
  read_assets "ec2" one_row = (Ok existing, w1) ∧
  existing ≠ [] ∧ assets ≠ [] ∧
  id_set assets ∩ id_set existing ≠ ∅ ∧
  batch_create_assets "ec2" assets one_row
    = (Err (DuplicateUniqueIds (id_set assets ∩ id_set existing)), w1).
Proof.
  intros assets existing w1.
  assert (Hread : read_assets "ec2" one_row = (Ok existing, w1)) by reflexivity.
  assert (Hne : id_set assets ∩ id_set existing ≠ ∅)
    by (apply (bool_decide_unpack _); vm_compute; exact I).
  split_and!; [exact Hread | discriminate | discriminate | exact Hne |].
  exact (proj1 (batch_create_duplicates_rejected "ec2" assets one_row existing w1
                  Hread ltac:(discriminate) ltac:(discriminate) Hne)).
Defined.

Lemma batch_create_appends_witness :
  let assets := [row "i-7" "running"] in
  let existing := [row "i-1" "running"] in
  let w1 := {| remote := remote one_row; calls := [GET "ec2"] |} in
  read_assets "ec2" one_row = (Ok existing, w1) ∧
  (∀ x, x ∈ map UniqueId assets → x ∉ map UniqueId existing) ∧
  NoDup (map UniqueId (existing ++ assets)).
Proof.
  intros assets existing w1.
  assert (Hread : read_assets "ec2" one_row = (Ok existing, w1)) by reflexivity.
  assert (Hdis : ∀ x, x ∈ map UniqueId assets → x ∉ map UniqueId existing).
  { intros x Hx Hx'. simpl in Hx, Hx'.
    apply list_elem_of_singleton in Hx. apply list_elem_of_singleton in Hx'.
    congruence. }
  split_and!; [exact Hread | exact Hdis |].
  apply (proj2 (batch_create_appends "ec2" assets one_row existing w1 Hread Hdis));
    apply NoDup_singleton.
Defined.

Lemma batch_delete_removes_witness :
  let existing := [row "i-1" "running"] in
  let w1 := {| remote := remote one_row; calls := [GET "ec2"] |} in
  read_assets "ec2" one_row = (Ok existing, w1) ∧
  existing ≠ [] ∧
  (∀ x, x ∈ ["i-1"] → x ∈ map UniqueId existing) ∧
  (batch_delete_assets "ec2" ["i-1"] one_row).1 = Ok ["i-1"] ∧
  filter (λ r, UniqueId r ∉ ["i-1"]) existing `sublist_of` existing.
Proof.
  intros existing w1.
  assert (Hread : read_assets "ec2" one_row = (Ok existing, w1)) by reflexivity.
  assert (Hall : ∀ x, x ∈ ["i-1"] → x ∈ map UniqueId existing)
    by (intros x Hx; exact Hx).
  split_and!; [exact Hread | discriminate | exact Hall | |].
  - destruct (batch_delete_removes "ec2" ["i-1"] one_row existing w1 Hread
                ltac:(discriminate) Hall) as (Hcall & _ & _).
    by rewrite Hcall.
  - exact (proj1 (proj2 (batch_delete_removes "ec2" ["i-1"] one_row existing w1
                           Hread ltac:(discriminate) Hall))).
Defined.

Lemma batch_delete_refused_witness :
  let w1 := {| remote := remote nothing; calls := [GET "ec2"] |} in
  read_assets "ec2" nothing = (Ok [], w1) ∧
  batch_delete_assets "ec2" [] nothing = (Err (KeyError "UniqueId"), w1).
Proof.
  intros w1.
  assert (Hread : read_assets "ec2" nothing = (Ok [], w1)) by reflexivity.
  split; [exact Hread|].
  exact (proj1 (proj2 (batch_delete_refused "ec2" [] nothing [] w1 Hread)) eq_refl).
Defined.

End DataLayerClientMoreFacts.

(** * The service in front of the data layer: properties *)
Module DeploymentFacts.
Import DataLayer DataLayerSpec DataLayerRoutes DataLayerInvariants Deployment.
Import DataLayerFacts DataAccessServiceSpec.

Section facts.
Context {J : Type} `{!JsonCodec J}.
Implicit Types (W : DataAccessService.World J (World J)) (t : AssetType).

Lemma asset_type_of_lower t :
  asset_type_of (DataAccessService.lower (value t)) = Some t.
Proof. destruct t; reflexivity. Qed.

Lemma validate_formatted (i : nat) (a : RawAsset J) :
  has_rejected a = false →
  validate i (DataAccessService.formatted_asset a) = Ok (sent_asset a).
Proof.
  destruct a as [f1 f2 f3 f4 f5 f6]. unfold has_rejected. simpl.
  destruct f1, f2, f3, f4, f5, f6; simpl; intros Hrej;
    first [discriminate Hrej | reflexivity].
Qed.

Lemma validate_formatted_rejected (i : nat) (a : RawAsset J) :
  has_rejected a = true →
  is_ok (validate i (DataAccessService.formatted_asset a)) = false.
Proof.
  destruct a as [f1 f2 f3 f4 f5 f6]. unfold has_rejected. simpl.
  destruct f1, f2, f3, f4, f5, f6; simpl; intros Hrej;
    first [discriminate Hrej | reflexivity].
Qed.

Lemma sent_spec (a : RawAsset J) :
  sent a = if has_rejected a then None else Some (sent_asset a).
Proof.
  unfold sent. destruct (has_rejected a) eqn:Hrej.
  - pose proof (validate_formatted_rejected 0 a Hrej) as Hv.
    by destruct (validate 0 _).
  - by rewrite validate_formatted.
Qed.

(** One individual create of the fallback, on the data layer: the
    dictionary sent is validated by [post_asset]; when it validates the
    asset is appended to the table, and otherwise the answer is 422 and
    the bucket is as before. *)
Lemma create_individual_data_layer t (a : RawAsset J) W df :
  read_table t (DataAccessService.backend W) = Ok df →
  let ats := DataAccessService.lower (value t) in
  let out := DataAccessService.create_individual ats a W in
  DataAccessService.requests out.2
  = DataAccessService.requests W ++
    [DataAccessService.PostAsset ats (DataAccessService.formatted_asset a)] ∧
  DataAccessService.failed out.2 = DataAccessService.failed W ∧
  match sent a with
  | Some x =>
      ∃ r row, out.1 = Some r ∧ out_unique_id r = ac_unique_id x ∧
               unique_id row = ac_unique_id x ∧
               read_table t (DataAccessService.backend out.2)
               = Ok (Frame (frame_rows df ++ [row]))
  | None =>
      out.1 = None ∧
      DataAccessService.backend out.2 = DataAccessService.backend W
  end.
Proof.
  intros Hdf ats out. subst out ats.
  unfold DataAccessService.create_individual, DataAccessService.post. simpl.
  rewrite asset_type_of_lower. unfold post_asset, sent.
  destruct (validate 0 (DataAccessService.formatted_asset a)) as [x|errs].
  - destruct (create_asset_ok t x (DataAccessService.backend W) df Hdf)
      as (r & w' & Hc & _ & Huid & _ & _ & Hread & _).
    rewrite Hc. simpl. split_and!; [done | done |].
    eexists r, _. split_and!; [done | done | | exact Hread]. reflexivity.
  - simpl. by split_and!.
Qed.

(** The run of the individual creates on the data layer. *)
Lemma attempts_data_layer t (assets : list (RawAsset J)) : ∀ W df,
  read_table t (DataAccessService.backend W) = Ok df →
  let run := attempts (DataAccessService.lower (value t)) assets W in
  ∃ added : list Row,
    map out_unique_id (omap (λ o, o) run.1)
    = map ac_unique_id (omap sent assets) ∧
    (∀ i, failures i run.1 = failures i (map sent assets)) ∧
    map unique_id added = map ac_unique_id (omap sent assets) ∧
    read_table t (DataAccessService.backend run.2)
    = Ok (if added is [] then df else Frame (frame_rows df ++ added)).
Proof.
  induction assets as [|a rest IH]; intros W df Hdf.
  - by exists [].
  - pose proof (create_individual_data_layer t a W df Hdf) as Hc.
    cbv zeta in Hc. cbn [attempts omap map].
    destruct (DataAccessService.create_individual
                (DataAccessService.lower (value t)) a W) as [o W1] eqn:Hone.
    simpl in Hc. destruct Hc as (_ & _ & Hc).
    destruct (sent a) as [x|] eqn:Hsent.
    + destruct Hc as (r & row & -> & Hr & Hrow & Hread).
      destruct (IH W1 _ Hread) as (added & Hresp & Hfail & Hadd & Hread').
      cbv zeta in Hresp, Hfail, Hread'.
      destruct (attempts (DataAccessService.lower (value t)) rest W1)
        as [os W2].
      simpl in *. rewrite Hsent. simpl. exists (row :: added). split_and!.
      * rewrite Hr. f_equal. exact Hresp.
      * intros i. apply Hfail.
      * simpl. rewrite Hrow. f_equal. exact Hadd.
      * rewrite Hread'. destruct added; simpl; [done|].
        by rewrite <- app_assoc.
    + destruct Hc as [-> Hback].
      assert (Hread : read_table t (DataAccessService.backend W1) = Ok df)
        by (by rewrite Hback).
      destruct (IH W1 _ Hread) as (added & Hresp & Hfail & Hadd & Hread').
      cbv zeta in Hresp, Hfail, Hread'.
      destruct (attempts (DataAccessService.lower (value t)) rest W1)
        as [os W2].
      simpl in *. rewrite Hsent. simpl. exists added.
      split_and!; [done | | done | done].
      intros i. by rewrite Hfail.
Qed.

(** X18. Through the service, a batch that the data layer rejects is
    not upserted but created record by record. When the key of the type
    holds a table or nothing, and either no table is stored (and the
    batch is not empty) or some record of the batch does not validate,
    [create_assets_batch] of the service raises nothing. A record one of
    whose keys holds a value that pydantic rejects ([null] for
    [unique_id] or [name], say) is rejected again when sent alone, and
    its place is logged. For every other record an asset is returned
    and one new line is appended to the table, under the [unique_id] of
    the record ([""] for a record without one), with the defaults of
    lines 120-125 for the absent keys: also for a [unique_id] that was
    stored already or that occurs twice in the batch. *)
Theorem rejected_batch_is_created_one_by_one t (assets : list (RawAsset J))
    W df :
  read_table t (DataAccessService.backend W) = Ok df →
  (df = NoColumns ∧ assets ≠ []) ∨
  (∃ k raw, assets !! k = Some raw ∧ is_ok (validate k raw) = false) →
  (∀ a : RawAsset J,
     sent a = if has_rejected a then None else Some (sent_asset a)) ∧
  ∃ resp W',
    DataAccessService.create_assets_batch t assets W = (Ok resp, W') ∧
    map out_unique_id resp = map ac_unique_id (omap sent assets) ∧
    DataAccessService.failed W'
    = DataAccessService.failed W ++ failures 0 (map sent assets) ∧
    unique_ids (table_rows t (DataAccessService.backend W'))
    = unique_ids (frame_rows df) ++ map ac_unique_id (omap sent assets).
Proof.
  intros Hdf Hwhy. split; [apply sent_spec|].
  assert (Hne : assets ≠ []).
  { destruct Hwhy as [[_ ?]|(k & raw & Hk & _)]; [done|]. by destruct assets. }
  (* the batch POST is answered with an error status, on the same bucket *)
  assert (Hpost : ∃ status body w1,
             DataAccessService.serve
               (DataAccessService.PostBatch (DataAccessService.lower (value t)) assets)
               (DataAccessService.backend W)
             = (DataAccessService.Response status body, w1) ∧
             DataAccessService.is_success status = false ∧
             read_table t w1 = Ok df).
  { simpl. rewrite asset_type_of_lower. unfold post_assets_batch.
    destruct (parse_batch 0 (map Dict assets)) as [l|errs] eqn:Hp.
    - destruct Hwhy as [[-> _]|(k & raw & Hk & Hbad)].
      + destruct l as [|a0 l].
        { destruct assets as [|r0 rest]; [done|]. simpl in Hp.
          destruct (validate 0 r0), (parse_batch 1 (map Dict rest)); done. }
        rewrite (create_assets_batch_no_columns t a0 l _ Hdf).
        eexists _, _, _. split_and!; [done | done | done].
      + destruct (validate k raw) as [|e] eqn:Hv; [done|].
        destruct (parse_batch_err_exists (map Dict assets) 0 k (Dict raw) e)
          as [errs Herrs]; [| done | congruence].
        change (map Dict assets) with (Dict <$> assets).
        by rewrite list_lookup_fmap, Hk.
    - eexists _, _, _. split_and!; [done | done | done]. }
  destruct Hpost as (status & body & w1 & Hserve & Hstatus & Hdf1).
  set (ats := DataAccessService.lower (value t)) in *.
  set (W1 := {| DataAccessService.backend := w1;
                DataAccessService.requests :=
                  DataAccessService.requests W ++
                  [DataAccessService.PostBatch ats assets];
                DataAccessService.failed := DataAccessService.failed W |}).
  destruct (attempts_data_layer t assets W1 df Hdf1)
    as (added & Hresp & Hfail & Hadd & Hread).
  cbv zeta in Hresp, Hfail, Hread. fold ats in Hresp, Hfail, Hread.
  eexists _, _. split_and!.
  - unfold DataAccessService.create_assets_batch, DataAccessService.post.
    fold ats. rewrite Hserve, Hstatus. fold W1.
    rewrite DataAccessServiceFacts.fallback_attempts. reflexivity.
  - exact Hresp.
  - simpl. by rewrite Hfail.
  - simpl. unfold table_rows. rewrite Hread, <- Hadd.
    destruct added; simpl; [by rewrite app_nil_r|].
    unfold unique_ids. by rewrite map_app.
Qed.

End facts.

Import Samples MoreSamples.

Lemma rejected_batch_is_created_one_by_one_witness :
  let W := {| DataAccessService.backend := stored;
              DataAccessService.requests := [];
              DataAccessService.failed := [] |} in
  read_table EC2 stored = Ok (Frame stored_lines) ∧
  raw_batch !! 1 = Some (raw (Some "i-2") None) ∧
  is_ok (validate 1 (raw (Some "i-2") None)) = false ∧
  ∃ resp W',
    DataAccessService.create_assets_batch EC2 raw_batch W = (Ok resp, W') ∧
    map out_unique_id resp = ["i-1"; "i-2"] ∧
    DataAccessService.failed W' = [2] ∧
    unique_ids (table_rows EC2 (DataAccessService.backend W'))
    = ["i-1"; "i-1"; "i-2"].
Proof.
  intros W.
  split; [reflexivity|]. split; [reflexivity|]. split; [reflexivity|].
  destruct (rejected_batch_is_created_one_by_one EC2 raw_batch W
              (Frame stored_lines) eq_refl)
    as (_ & resp & W' & Hcall & Hresp & Hfailed & Hids).
  { right. exists 1, (raw (Some "i-2") None). by split. }
  exists resp, W'. split_and!; [exact Hcall | exact Hresp | exact Hfailed | exact Hids].
Defined.

End DeploymentFacts.

(** * The gateway: properties *)
Module GatewayFacts.
Import DataLayer Gateway.

Lemma lstrip_slash_slashes (n : nat) (path : string) :
  lstrip_slash (slashes n +:+ path) = lstrip_slash path.
Proof. induction n as [|n IH]; [done | exact IH]. Qed.

(** X19. What the gateway forwards to for the data-access service.
    Leading slashes of the path do not matter. The short path of an
    asset type reaches [/assets/<type>] of the data-access service, the
    same target as the long path, for every asset type except [igw],
    [ni] and [lambda], whose short path is forwarded as it is. A service
    that is not routed is answered 404. *)
Theorem gateway_targets :
  (∀ (service path : string) (n : nat),
     target_url service (slashes n +:+ path) = target_url service path) ∧
  (∀ t : AssetType,
     target_url "data-access" ("assets/" +:+ value t)
     = Ok ("http://data-access-service.microservices:8000/assets/" +:+ value t) ∧
     target_url "data-access" (value t)
     = Ok ("http://data-access-service.microservices:8000/" +:+
           (if no_short_path t then value t
            else "assets/" +:+ value t))) ∧
  (∀ service path : string,
     service ∉ ["analytics"; "processing"; "storage"; "data-access"] →
     target_url service path = Err (HTTP404 service)).
Proof.
  split_and!.
  - intros service path n. unfold target_url.
    by rewrite lstrip_slash_slashes.
  - intros t. destruct t; split; vm_compute; reflexivity.
  - intros service path Hnot. unfold target_url. simpl.
    rewrite !elem_of_cons, elem_of_nil in Hnot.
    by rewrite !bool_decide_eq_false_2 by (intros <-; tauto).
Qed.

End GatewayFacts.
